(** * astro-snapshot: the integration of [src/index.ts]

    A shallow embedding of the [snapshot] integration: the resolution of
    the integration options, [resolveScreenshotConfig], and the
    [astro:build:done] handler with its preview server, browser and
    [try]/[finally] teardown.

    JavaScript objects used as option bags are finite maps from property
    names to values; object spread is a left-to-right overwrite.  The
    awaited collaborators ([preview], puppeteer, [mkdir]) are calls
    recorded in a trace, each of which may reject; log entries are
    recorded in the same trace. *)

From stdpp Require Import base strings gmap list pretty.
From Stdlib Require Import ZArith Lia.

Open Scope Z_scope.

(** ** JavaScript values *)

Module Js.

(** The values that occur in the option objects handed to puppeteer. *)
Inductive value :=
| VUndefined
| VNull
| VBool (b : bool)
| VNum (z : Z)
| VStr (s : string).

(** An optional numeric property ([width?: number], [port?: number]):
    absent ([undefined]), [null], or a number.  Numbers are the integers;
    [NaN] and fractions are outside the model. *)
Inductive optnum :=
| Undefined
| Null
| Num (z : Z).

(** Truthiness of an optional number: a non-zero number. *)
Definition truthy (a : optnum) : bool :=
  match a with
  | Num z => negb (z =? 0)
  | _ => false
  end.

(** [a || b]: the left operand when it is truthy, else the right one. *)
Definition or (a b : optnum) : optnum := if truthy a then a else b.

(** [a || n] with a numeric literal on the right: always a number. *)
Definition or_num (a : optnum) (n : Z) : Z :=
  match or a (Num n) with
  | Num z => z
  | _ => n
  end.

(** [a ?? n]: the left operand unless it is [undefined] or [null]. *)
Definition nullish (a : optnum) (n : Z) : Z :=
  match a with
  | Num z => z
  | _ => n
  end.

(** An object used as a bag of options. *)
Abbreviation object := (gmap string value).

(** [{...target, ...src}]: every own property of [src] is copied over
    [target]; a key of [src] wins, also when its value is [undefined]. *)
Definition spread (target src : object) : object := src ∪ target.

(** Spreading an optional object: [...undefined] copies nothing. *)
Definition spread_opt (target : object) (src : option object) : object :=
  match src with
  | Some o => spread target o
  | None => target
  end.

End Js.

Import Js.

(** ** Exceptions and results *)

(** The external calls of the build-done handler, with their arguments. *)
Inductive Call :=
| Preview (root : string) (port : Z)
| Launch (options : object)
| Mkdir (dir : string)
| NewPage
| SetViewport (width height : Z)
| Goto (url : string) (options : object)
| Screenshot (options : object)
| PageClose
| BrowserClose
| ServerStop.

Inductive Exn :=
| FormatError (path : string)      (* thrown by [getFormat] *)
| NotIterable                      (* TypeError of [for ... of] *)
| Rejected (c : Call).             (* a collaborator's promise rejected *)

Inductive Result (A : Type) :=
| Ok (a : A)
| Throw (e : Exn).
Arguments Ok {A} a.
Arguments Throw {A} e.

(** ** Configuration types *)

(** [ScreenshotConfig]: one capture specification. *)
Record ScreenshotConfig := {
  width : optnum;
  height : optnum;
  outputPath : string;
  gotoOptions : option object;
  screenshotOptions : option object;
}.

(** The fields that [resolveScreenshotConfig] reads from [defaults]
    ([{...config.defaults}]: every one of them may be absent). *)
Record Defaults := {
  d_width : optnum;
  d_height : optnum;
  d_gotoOptions : option object;
  d_screenshotOptions : option object;
}.

(** [{}], the defaults when [config.defaults] is not given. *)
Definition no_defaults : Defaults :=
  {| d_width := Undefined; d_height := Undefined;
     d_gotoOptions := None; d_screenshotOptions := None |}.

(** The value of a route in [pages], as it exists at run time: an array of
    capture specifications, or what the usage example of the module
    documentation writes, a bare specification or [true]. *)
Inductive PageValue :=
| Configs (l : list ScreenshotConfig)
| Single (c : ScreenshotConfig)
| Flag (b : bool).

(** [SnapshotIntegrationConfig].  [cfg_pages] lists the entries of the
    [pages] object in the order of [Object.entries]. *)
Record SnapshotIntegrationConfig := {
  cfg_pages : list (string * PageValue);
  cfg_defaults : option Defaults;
  cfg_launchOptions : option object;
  cfg_port : optnum;
}.

(** The value returned by [resolveScreenshotConfig]. *)
Record Resolved := {
  r_width : Z;
  r_height : Z;
  r_goToOptions : object;
  r_outputPath : string;
  r_screenshotOptions : object;
}.

(** ** [getFormat] of [utils.ts] *)

Definition ends_with (suffix s : string) : bool :=
  String.prefix (String.rev suffix) (String.rev s).

(** Modelled from the spec: [getFormat] lives in [utils.ts], which is not
    part of the sources at hand.  The format is determined by the file
    extension alone: paths ending in [.png], [.jpg]/[.jpeg] and [.webp]
    give the matching format, any other path fails. *)
Definition getFormat (path : string) : Result string :=
  if ends_with ".png" path then Ok "png"
  else if ends_with ".jpg" path || ends_with ".jpeg" path then Ok "jpeg"
  else if ends_with ".webp" path then Ok "webp"
  else Throw (FormatError path).

(** ** The world of the build-done handler *)

Inductive Level := Debug | Info.

(** What the handler did, in order: an external call and whether it
    resolved, or a log entry. *)
Inductive Event :=
| Called (c : Call) (resolved : bool)
| Logged (level : Level) (msg : string).

Record World := {
  calls : nat;            (* external calls made so far *)
  trace : list Event;     (* oldest first *)
}.

Definition initial : World := {| calls := 0; trace := [] |}.

(** An [async] computation: it runs in a world and returns or throws. *)
Definition M (A : Type) : Type := World -> Result A * World.

Definition ret {A} (a : A) : M A := fun w => (Ok a, w).

Definition bind {A B} (m : M A) (k : A -> M B) : M B :=
  fun w =>
    match m w with
    | (Ok a, w') => k a w'
    | (Throw e, w') => (Throw e, w')
    end.

(** A synchronous result inside an [async] function. *)
Definition lift {A} (r : Result A) : M A := fun w => (r, w).

(** [try { body } finally { cleanup }]: the cleanup runs on every exit of
    the body; when the cleanup itself throws, its exception replaces the
    outcome of the body. *)
Definition try_finally {A} (body : M A) (cleanup : M unit) : M A :=
  fun w =>
    match body w with
    | (r, w') =>
        match cleanup w' with
        | (Ok _, w'') => (r, w'')
        | (Throw e, w'') => (Throw e, w'')
        end
    end.

Declare Scope async_scope.
Delimit Scope async_scope with async.
Notation "x <- m ;; k" := (bind m (fun x => k))
  (at level 100, m at next level, right associativity) : async_scope.
Notation "m ;; k" := (bind m (fun _ => k))
  (at level 100, right associativity) : async_scope.
Open Scope async_scope.

(** [for (const x of l) body]: in order, stopping at the first throw. *)
Fixpoint for_of {A} (l : list A) (body : A -> M unit) : M unit :=
  match l with
  | [] => ret tt
  | x :: l' => body x ;; for_of l' body
  end.

(** The logger of the host; its methods do not throw. *)
Definition log (level : Level) (msg : string) : M unit :=
  fun w =>
    (Ok tt, {| calls := calls w; trace := trace w ++ [Logged level msg] |}).

(** What [for ... of] iterates over: an array gives its elements, a plain
    object or a boolean is not iterable. *)
Definition iterate (v : PageValue) : Result (list ScreenshotConfig) :=
  match v with
  | Configs l => Ok l
  | Single _ | Flag _ => Throw NotIterable
  end.

(** The calls of the [finally] block. *)
Definition is_teardown (e : Event) : bool :=
  match e with
  | Called BrowserClose _ | Called ServerStop _ => true
  | _ => false
  end.

Definition not_teardown (e : Event) : Prop := is_teardown e = false.

Definition resolved (c : Call) : Event := Called c true.
Definition rejected (c : Call) : Event := Called c false.

Definition extend (w : World) (n : nat) (evs : list Event) : World :=
  {| calls := (calls w + n)%nat; trace := trace w ++ evs |}.

(** [m] only adds events that satisfy [P] to the trace. *)
Definition emits {A} (P : Event -> Prop) (m : M A) : Prop :=
  forall w, exists n evs,
    (m w).2 = extend w n evs /\ Forall P evs.

(** ** The integration *)

Section Snapshot.

(** [getFormat] of [utils.ts] and the functions of [node:path]. *)
Variable getFormat : string -> Result string.
Variables (resolve : string -> string -> string)
          (dirname : string -> string)
          (relative : string -> string -> string).

(** The environment: whether the [n]-th external call (counting from 0)
    rejects. *)
Variable rejects : nat -> bool.

(** [await c]: the call is recorded with its outcome. *)
Definition call (c : Call) : M unit :=
  fun w =>
    let ok := negb (rejects (calls w)) in
    let w' := {| calls := S (calls w);
                 trace := trace w ++ [Called c ok] |} in
    (if ok then Ok tt else Throw (Rejected c), w').

Variable config : SnapshotIntegrationConfig.

(** Resolved config options *)
Definition pages : list (string * PageValue) := cfg_pages config.

Definition defaults : Defaults :=
  match cfg_defaults config with
  | Some d => d
  | None => no_defaults
  end.

Definition launchOptions : object :=
  spread_opt {[ "headless" := VBool true ]} (cfg_launchOptions config).

Definition port : Z := nullish (cfg_port config) 4322.

Definition resolveScreenshotConfig (pageConfig : ScreenshotConfig)
  : Result Resolved :=
  let outputPath := outputPath pageConfig in
  match getFormat outputPath with
  | Throw e => Throw e
  | Ok format =>
      Ok {| r_width :=
              or_num (or (width pageConfig) (d_width defaults)) 1200;
            r_height :=
              or_num (or (height pageConfig) (d_height defaults)) 630;
            r_goToOptions :=
              spread_opt
                (spread_opt {[ "waitUntil" := VStr "networkidle2" ]}
                   (d_gotoOptions defaults))
                (gotoOptions pageConfig);
            r_outputPath := outputPath;
            r_screenshotOptions :=
              spread_opt
                (spread_opt
                   {[ "path" := VStr outputPath;
                      "type" := VStr format;
                      "fullPage" := VBool false ]}
                   (d_screenshotOptions defaults))
                (screenshotOptions pageConfig) |}
  end.

(** [pagePath.startsWith('/') ? pagePath : `/${pagePath}`] *)
Definition normalizedPagePath (pagePath : string) : string :=
  if String.prefix "/" pagePath then pagePath else "/" +:+ pagePath.

(** [`http://localhost:${port}${normalizedPagePath}`] *)
Definition pageUrl (pagePath : string) : string :=
  "http://localhost:" +:+ pretty port +:+ normalizedPagePath pagePath.

(** [rootDir], assigned by the [astro:config:done] handler, which the
    host runs before [astro:build:done]. *)
Variable rootDir : string.

(** The body of the inner loop: one capture. *)
Definition capture (pagePath : string) (screenshotConfig : ScreenshotConfig)
  : M unit :=
  r <- lift (resolveScreenshotConfig screenshotConfig) ;;
  let absoluteOutputPath := resolve rootDir (r_outputPath r) in
  call (Mkdir (dirname absoluteOutputPath)) ;;
  call NewPage ;;
  call (SetViewport (r_width r) (r_height r)) ;;
  call (Goto (pageUrl pagePath) (r_goToOptions r)) ;;
  call (Screenshot (r_screenshotOptions r)) ;;
  call PageClose ;;
  let relativePath := relative rootDir absoluteOutputPath in
  log Info ("📸 Screenshot generated: " +:+ normalizedPagePath pagePath
            +:+ " → " +:+ relativePath).

(** The body of the outer loop: every specification of one route. *)
Definition capturePage (entry : string * PageValue) : M unit :=
  let '(pagePath, screenshotConfigs) := entry in
  configs <- lift (iterate screenshotConfigs) ;;
  for_of configs (capture pagePath).

Definition teardown : M unit :=
  call BrowserClose ;;
  call ServerStop.

Definition handleBuildDone : M unit :=
  let pageEntries := pages in
  if (length pageEntries =? 0)%nat then
    log Debug "No pages configured for screenshot generation. Skipping..."
  else
    call (Preview rootDir port) ;;
    call (Launch launchOptions) ;;
    try_finally (for_of pageEntries capturePage) teardown.

(** *** Reading a run *)

(** The external calls of one capture, in the order of the loop body. *)
Definition captureCalls (pagePath : string) (r : Resolved) : list Call :=
  [ Mkdir (dirname (resolve rootDir (r_outputPath r)));
    NewPage;
    SetViewport (r_width r) (r_height r);
    Goto (pageUrl pagePath) (r_goToOptions r);
    Screenshot (r_screenshotOptions r);
    PageClose ].

(** The log entry that ends a capture. *)
Definition captureLogged (pagePath : string) (r : Resolved) : Event :=
  Logged Info
    ("📸 Screenshot generated: " +:+ normalizedPagePath pagePath +:+ " → "
     +:+ relative rootDir (resolve rootDir (r_outputPath r))).

(** The world once the server has started and the browser has launched. *)
Definition started : World :=
  extend initial 2
    [resolved (Preview rootDir port);
     resolved (Launch launchOptions)].

End Snapshot.

(** ** Reading the spec: layered options and dimensions *)

(** The own properties of an optional object. *)
Definition props (o : option object) : object :=
  match o with
  | Some m => m
  | None => ∅
  end.

(** The value of key [k] after layering [own] over [shared] over
    [fallback]: the first of the three that has the key. *)
Definition layered (fallback shared own : object) (k : string)
  : option value :=
  match own !! k with
  | Some v => Some v
  | None =>
      match shared !! k with
      | Some v => Some v
      | None => fallback !! k
      end
  end.

(** A dimension as the spec words it: the specification's value if
    truthy, else the defaults' value if truthy, else the hard fallback. *)
Definition dimension (own shared : optnum) (fallback : Z) : Z :=
  match own with
  | Num z =>
      if decide (z = 0) then
        match shared with
        | Num s => if decide (s = 0) then fallback else s
        | _ => fallback
        end
      else z
  | _ =>
      match shared with
      | Num s => if decide (s = 0) then fallback else s
      | _ => fallback
      end
  end.

(** ** Concrete collaborators *)

(** A plain reading of [node:path] on normalised POSIX paths, to run the
    handler on concrete inputs; the theorems hold for every
    implementation. *)
Definition posix_resolve (root p : string) : string :=
  if String.prefix "/" p then p else root +:+ "/" +:+ p.

Fixpoint before_last_slash (s : string) : option string :=
  match s with
  | EmptyString => None
  | String a s' =>
      match before_last_slash s' with
      | Some d => Some (String a d)
      | None => if String.prefix "/" s then Some EmptyString else None
      end
  end.

Definition posix_dirname (p : string) : string :=
  match before_last_slash p with
  | Some EmptyString => "/"
  | Some d => d
  | None => "."
  end.

Definition posix_relative (root p : string) : string :=
  if String.prefix (root +:+ "/") p
  then String.substring (S (String.length root))
         (String.length p - S (String.length root)) p
  else p.

(** Every call resolves. *)
Definition all_resolve : nat -> bool := fun _ => false.

(** Only the [k]-th call rejects. *)
Definition rejects_at (k : nat) : nat -> bool := fun n => (n =? k)%nat.

(** The [/about] entry of the usage example in the module
    documentation: a bare specification as the value of the route. *)
Definition about_page : ScreenshotConfig :=
  {| width := Num 1920; height := Num 1080;
     outputPath := "public/images/about-preview.png";
     gotoOptions := None; screenshotOptions := None |}.

Definition documented_usage : SnapshotIntegrationConfig :=
  {| cfg_pages := [("/about", Single about_page)];
     cfg_defaults := None; cfg_launchOptions := None;
     cfg_port := Undefined |}.

(** The same route with the specification in an array. *)
Definition array_usage : SnapshotIntegrationConfig :=
  {| cfg_pages := [("/about", Configs [about_page])];
     cfg_defaults := None; cfg_launchOptions := None;
     cfg_port := Undefined |}.

Definition home_page : ScreenshotConfig :=
  {| width := Undefined; height := Undefined; outputPath := "og/home.png";
     gotoOptions := None; screenshotOptions := None |}.

Definition two_routes : SnapshotIntegrationConfig :=
  {| cfg_pages := [("/", Configs [home_page]);
                   ("about", Configs [about_page])];
     cfg_defaults := None; cfg_launchOptions := None;
     cfg_port := Undefined |}.

(** What the two specifications resolve to without defaults. *)
Definition home_resolved : Resolved :=
  {| r_width := 1200; r_height := 630;
     r_goToOptions := {[ "waitUntil" := VStr "networkidle2" ]};
     r_outputPath := "og/home.png";
     r_screenshotOptions :=
       {[ "path" := VStr "og/home.png"; "type" := VStr "png";
          "fullPage" := VBool false ]} |}.

Definition about_resolved : Resolved :=
  {| r_width := 1920; r_height := 1080;
     r_goToOptions := {[ "waitUntil" := VStr "networkidle2" ]};
     r_outputPath := "public/images/about-preview.png";
     r_screenshotOptions :=
       {[ "path" := VStr "public/images/about-preview.png";
          "type" := VStr "png"; "fullPage" := VBool false ]} |}.

Definition run (rejects : nat -> bool) (cfg : SnapshotIntegrationConfig)
  : Result unit * World :=
  handleBuildDone getFormat posix_resolve posix_dirname posix_relative
    rejects cfg "/site" initial.

(** ** Example configurations *)

Definition zero_sized : ScreenshotConfig :=
  {| width := Num 0; height := Num 0; outputPath := "og/home.webp";
     gotoOptions := None; screenshotOptions := None |}.

Definition wide_defaults : SnapshotIntegrationConfig :=
  {| cfg_pages := [("/", Configs [zero_sized])];
     cfg_defaults :=
       Some {| d_width := Num 1920; d_height := Num 0;
               d_gotoOptions := None; d_screenshotOptions := None |};
     cfg_launchOptions := None; cfg_port := Undefined |}.

Definition layered_config : SnapshotIntegrationConfig :=
  {| cfg_pages := [];
     cfg_defaults :=
       Some {| d_width := Undefined; d_height := Undefined;
               d_gotoOptions :=
                 Some {[ "waitUntil" := VStr "load";
                         "timeout" := VNum 5000 ]};
               d_screenshotOptions := None |};
     cfg_launchOptions := None; cfg_port := Undefined |}.

Definition eager_page : ScreenshotConfig :=
  {| width := Undefined; height := Undefined; outputPath := "shots/a.jpg";
     gotoOptions := Some {[ "waitUntil" := VStr "domcontentloaded" ]};
     screenshotOptions := None |}.

Definition quality_defaults : SnapshotIntegrationConfig :=
  {| cfg_pages := [];
     cfg_defaults :=
       Some {| d_width := Undefined; d_height := Undefined;
               d_gotoOptions := None;
               d_screenshotOptions := Some {[ "quality" := VNum 80 ]} |};
     cfg_launchOptions := None; cfg_port := Undefined |}.

Definition full_page : ScreenshotConfig :=
  {| width := Undefined; height := Undefined; outputPath := "og/post.jpeg";
     gotoOptions := None;
     screenshotOptions := Some {[ "fullPage" := VBool true ]} |}.

(** A specification that supplies its own [path] and [type]. *)
Definition redirected : ScreenshotConfig :=
  {| width := Undefined; height := Undefined; outputPath := "out/a.png";
     gotoOptions := None;
     screenshotOptions :=
       Some {[ "path" := VStr "elsewhere/b.webp";
               "type" := VStr "webp" ]} |}.

(** ** Reading a run without rejections *)

Section Plan.

Variable gf : string -> Result string.
Variables (resolve : string -> string -> string)
          (dirname : string -> string)
          (relative : string -> string -> string).
Variable cfg : SnapshotIntegrationConfig.
Variable rootDir : string.

(** The resolved configs of an array of specifications, when every one
    of them resolves. *)
Fixpoint resolveAll (l : list ScreenshotConfig) : option (list Resolved) :=
  match l with
  | [] => Some []
  | c :: l' =>
      match resolveScreenshotConfig gf cfg c, resolveAll l' with
      | Ok r, Some rs => Some (r :: rs)
      | _, _ => None
      end
  end.

(** The captures of a pages mapping in the order of the two loops: route
    by route, and within a route specification by specification; defined
    when every route has an array whose specifications all resolve. *)
Fixpoint plan (entries : list (string * PageValue))
  : option (list (string * Resolved)) :=
  match entries with
  | [] => Some []
  | (route, Configs l) :: rest =>
      match resolveAll l, plan rest with
      | Some rs, Some more => Some ((pair route <$> rs) ++ more)
      | _, _ => None
      end
  | _ => None
  end.

(** The events of one capture that runs to its end. *)
Definition captured (p : string * Resolved) : list Event :=
  (resolved <$> captureCalls resolve dirname cfg rootDir p.1 p.2)
  ++ [captureLogged resolve relative rootDir p.1 p.2].

End Plan.

(** ** Further example configurations *)

(** A route whose array of specifications is empty. *)
Definition empty_array_usage : SnapshotIntegrationConfig :=
  {| cfg_pages := [("/", Configs [])];
     cfg_defaults := None; cfg_launchOptions := None;
     cfg_port := Undefined |}.

(** A specification whose output path has no image extension. *)
Definition gif_page : ScreenshotConfig :=
  {| width := Undefined; height := Undefined; outputPath := "og/home.gif";
     gotoOptions := None; screenshotOptions := None |}.

Definition gif_usage : SnapshotIntegrationConfig :=
  {| cfg_pages := [("/", Configs [gif_page; home_page]);
                   ("/about", Configs [about_page])];
     cfg_defaults := None; cfg_launchOptions := None;
     cfg_port := Undefined |}.

(** ** Where the events of a run come from *)


(** The server is started on the root directory and the resolved port,
    and a navigation goes to that port on [localhost], to a path that
    begins with [/]. *)
Definition on_port (cfg : SnapshotIntegrationConfig) (rootDir : string)
    (e : Event) : Prop :=
  match e with
  | Called (Preview root p) _ => root = rootDir /\ p = port cfg
  | Called (Goto url _) _ =>
      exists path,
        url = "http://localhost:" +:+ pretty (port cfg) +:+ path
        /\ String.prefix "/" path = true
  | _ => True
  end.

(** A viewport has a non-zero width and height. *)
Definition sized (e : Event) : Prop :=
  match e with
  | Called (SetViewport w h) _ => w <> 0 /\ h <> 0
  | _ => True
  end.

(** * Properties *)

(** ** Object spread *)

Lemma lookup_spread (target src : object) (k : string) :
  spread target src !! k =
  match src !! k with
  | Some v => Some v
  | None => target !! k
  end.
Proof.
  unfold spread. destruct (src !! k) as [v|] eqn:E.
  - by apply lookup_union_Some_l.
  - by apply lookup_union_r.
Qed.

Lemma lookup_spread_opt (target : object) (src : option object) (k : string) :
  spread_opt target src !! k =
  match props src !! k with
  | Some v => Some v
  | None => target !! k
  end.
Proof.
  destruct src as [m|]; simpl.
  - apply lookup_spread.
  - by rewrite lookup_empty.
Qed.

Lemma lookup_three_layers (fallback : object) (shared own : option object)
    (k : string) :
  spread_opt (spread_opt fallback shared) own !! k
  = layered fallback (props shared) (props own) k.
Proof. unfold layered. by rewrite !lookup_spread_opt. Qed.

(** The resolver returns exactly when [getFormat] does. *)
Lemma resolveScreenshotConfig_Ok gf cfg pc fmt :
  gf (outputPath pc) = Ok fmt ->
  exists rc,
    resolveScreenshotConfig gf cfg pc = Ok rc
    /\ r_width rc = or_num (or (width pc) (d_width (defaults cfg))) 1200
    /\ r_height rc = or_num (or (height pc) (d_height (defaults cfg))) 630
    /\ r_outputPath rc = outputPath pc
    /\ r_goToOptions rc =
         spread_opt
           (spread_opt {[ "waitUntil" := VStr "networkidle2" ]}
              (d_gotoOptions (defaults cfg)))
           (gotoOptions pc)
    /\ r_screenshotOptions rc =
         spread_opt
           (spread_opt
              {[ "path" := VStr (outputPath pc); "type" := VStr fmt;
                 "fullPage" := VBool false ]}
              (d_screenshotOptions (defaults cfg)))
           (screenshotOptions pc).
Proof.
  intros Hfmt. unfold resolveScreenshotConfig. rewrite Hfmt.
  eexists. split; [reflexivity|]. simpl. auto 10.
Qed.

Lemma resolveScreenshotConfig_Throw gf cfg pc e :
  gf (outputPath pc) = Throw e ->
  resolveScreenshotConfig gf cfg pc = Throw e.
Proof. intros Hfmt. unfold resolveScreenshotConfig. by rewrite Hfmt. Qed.

Lemma or_num_dimension (own shared : optnum) (fallback : Z) :
  or_num (or own shared) fallback = dimension own shared fallback.
Proof.
  unfold or_num, or, truthy, dimension.
  destruct own as [| |z], shared as [| |s]; simpl; try reflexivity;
    repeat case_decide; subst; simpl; try reflexivity;
    repeat match goal with
      | |- context [?a =? 0] => destruct (Z.eqb_spec a 0); simpl; try lia
      end; try reflexivity.
Qed.

Lemma dimension_nonzero (own shared : optnum) (fallback : Z) :
  fallback <> 0 -> dimension own shared fallback <> 0.
Proof.
  intros Hf. unfold dimension.
  destruct own as [| |z], shared as [| |s]; repeat case_decide; auto.
Qed.

(** ** Claims on the config resolver *)

(** C1: for defaults [{width: 1920, gotoOptions: {timeout: 5000}}] and the
    specification [{height: 800, outputPath: "out/a.png"}] the resolver
    returns exactly [{width: 1920, height: 800, goToOptions: {waitUntil:
    "networkidle2", timeout: 5000}, outputPath: "out/a.png",
    screenshotOptions: {path: "out/a.png", type: "png", fullPage:
    false}}], whatever the other options of the integration are. *)
Theorem resolve_documented_example :
  forall pgs lo p,
    resolveScreenshotConfig getFormat
      {| cfg_pages := pgs;
         cfg_defaults :=
           Some {| d_width := Num 1920; d_height := Undefined;
                   d_gotoOptions := Some {[ "timeout" := VNum 5000 ]};
                   d_screenshotOptions := None |};
         cfg_launchOptions := lo; cfg_port := p |}
      {| width := Undefined; height := Num 800; outputPath := "out/a.png";
         gotoOptions := None; screenshotOptions := None |}
    = Ok {| r_width := 1920; r_height := 800;
            r_goToOptions := {[ "waitUntil" := VStr "networkidle2";
                                "timeout" := VNum 5000 ]};
            r_outputPath := "out/a.png";
            r_screenshotOptions := {[ "path" := VStr "out/a.png";
                                      "type" := VStr "png";
                                      "fullPage" := VBool false ]} |}.
Proof. intros pgs lo p. vm_compute. reflexivity. Qed.

(** C2: whenever the resolver returns, the resolved width is the
    specification's width if truthy, else the defaults' width if truthy,
    else 1200, and the height likewise with 630; neither is ever 0, and a
    specification with width 0 (height 0) gets what a specification
    without width (height) gets. *)
Theorem resolve_dimensions :
  forall gf cfg pc fmt,
    gf (outputPath pc) = Ok fmt ->
    exists rc,
      resolveScreenshotConfig gf cfg pc = Ok rc
      /\ r_width rc = dimension (width pc) (d_width (defaults cfg)) 1200
      /\ r_height rc = dimension (height pc) (d_height (defaults cfg)) 630
      /\ r_width rc <> 0 /\ r_height rc <> 0
      /\ (width pc = Num 0 ->
          r_width rc = dimension Undefined (d_width (defaults cfg)) 1200)
      /\ (height pc = Num 0 ->
          r_height rc = dimension Undefined (d_height (defaults cfg)) 630).
Proof.
  intros gf cfg pc fmt Hfmt.
  destruct (resolveScreenshotConfig_Ok gf cfg pc fmt Hfmt)
    as (rc & Hrc & Hw & Hh & _).
  rewrite or_num_dimension in Hw, Hh.
  exists rc. repeat split; try assumption.
  - rewrite Hw. by apply dimension_nonzero.
  - rewrite Hh. by apply dimension_nonzero.
  - intros H0. rewrite Hw, H0. reflexivity.
  - intros H0. rewrite Hh, H0. reflexivity.
Qed.

Lemma resolve_dimensions_witness :
  exists rc,
    resolveScreenshotConfig getFormat wide_defaults zero_sized = Ok rc
    /\ r_width rc = 1920 /\ r_height rc = 630.
Proof.
  destruct (resolve_dimensions getFormat wide_defaults zero_sized "webp"
              eq_refl) as (rc & Hrc & Hw & Hh & _).
  exists rc. split; [exact Hrc|]. split; [exact Hw | exact Hh].
Defined.

(** C7: whenever the resolver returns, the resolved goToOptions are the
    shallow merge of [{waitUntil: "networkidle2"}], then the defaults'
    gotoOptions, then the specification's: for every key the
    specification's value wins over the defaults' value, which wins over
    the fallback, and keys in none of the three are absent. *)
Theorem resolve_goToOptions_layers :
  forall gf cfg pc fmt,
    gf (outputPath pc) = Ok fmt ->
    exists rc,
      resolveScreenshotConfig gf cfg pc = Ok rc
      /\ forall k,
           r_goToOptions rc !! k
           = layered {[ "waitUntil" := VStr "networkidle2" ]}
               (props (d_gotoOptions (defaults cfg)))
               (props (gotoOptions pc)) k.
Proof.
  intros gf cfg pc fmt Hfmt.
  destruct (resolveScreenshotConfig_Ok gf cfg pc fmt Hfmt)
    as (rc & Hrc & _ & _ & _ & Hgo & _).
  exists rc. split; [exact Hrc|].
  intros k. rewrite Hgo. apply lookup_three_layers.
Qed.

Lemma resolve_goToOptions_layers_witness :
  exists rc,
    resolveScreenshotConfig getFormat layered_config eager_page = Ok rc
    /\ r_goToOptions rc !! "waitUntil" = Some (VStr "domcontentloaded")
    /\ r_goToOptions rc !! "timeout" = Some (VNum 5000)
    /\ r_goToOptions rc !! "referer" = None.
Proof.
  destruct (resolve_goToOptions_layers getFormat layered_config eager_page
              "jpeg" eq_refl) as (rc & Hrc & Hk).
  exists rc. split; [exact Hrc|].
  split; [|split]; rewrite Hk; reflexivity.
Defined.

(** C3, as the code has it: when neither the defaults' nor the
    specification's screenshotOptions carries a [path] or a [type] key,
    the resolved screenshotOptions' path is the specification's
    outputPath and its type is the format derived from that outputPath. *)
Theorem resolve_path_type_computed :
  forall gf cfg pc fmt,
    gf (outputPath pc) = Ok fmt ->
    (forall k, k = "path" \/ k = "type" ->
       props (d_screenshotOptions (defaults cfg)) !! k = None
       /\ props (screenshotOptions pc) !! k = None) ->
    exists rc,
      resolveScreenshotConfig gf cfg pc = Ok rc
      /\ r_screenshotOptions rc !! "path" = Some (VStr (outputPath pc))
      /\ r_screenshotOptions rc !! "type" = Some (VStr fmt).
Proof.
  intros gf cfg pc fmt Hfmt Hfree.
  destruct (resolveScreenshotConfig_Ok gf cfg pc fmt Hfmt)
    as (rc & Hrc & _ & _ & _ & _ & Hso).
  exists rc. split; [exact Hrc|].
  split; rewrite Hso, lookup_three_layers; unfold layered.
  - destruct (Hfree "path") as [-> ->]; [by left|]. reflexivity.
  - destruct (Hfree "type") as [-> ->]; [by right|]. reflexivity.
Qed.

Lemma resolve_path_type_computed_witness :
  exists rc,
    resolveScreenshotConfig getFormat quality_defaults full_page = Ok rc
    /\ r_screenshotOptions rc !! "path" = Some (VStr "og/post.jpeg")
    /\ r_screenshotOptions rc !! "type" = Some (VStr "jpeg").
Proof.
  apply (resolve_path_type_computed getFormat quality_defaults full_page
           "jpeg" eq_refl).
  intros k [-> | ->]; split; reflexivity.
Defined.

(** C3 as stated fails: a [path] or [type] key supplied in the
    specification's screenshotOptions is spread after the computed ones
    and replaces them. *)
Lemma resolve_path_type_overridden :
  exists rc,
    resolveScreenshotConfig getFormat quality_defaults redirected = Ok rc
    /\ getFormat (outputPath redirected) = Ok "png"
    /\ r_screenshotOptions rc !! "path" = Some (VStr "elsewhere/b.webp")
    /\ r_screenshotOptions rc !! "path"
       <> Some (VStr (outputPath redirected))
    /\ r_screenshotOptions rc !! "type" = Some (VStr "webp")
    /\ r_screenshotOptions rc !! "type" <> Some (VStr "png").
Proof.
  eexists. split; [reflexivity|].
  repeat split; try reflexivity; vm_compute; discriminate.
Qed.

(** ** Claims on the integration options and the navigation URL *)

(** C10: the port is taken by nullish coalescing: a configured number is
    used as it is, 0 included, and only [undefined] or [null] gives 4322;
    a width of 0, by contrast, resolves to the fallback. *)
Theorem port_nullish :
  forall pgs d lo,
    let with_port p :=
      {| cfg_pages := pgs; cfg_defaults := d;
         cfg_launchOptions := lo; cfg_port := p |} in
    (forall z, port (with_port (Num z)) = z)
    /\ port (with_port (Num 0)) = 0
    /\ port (with_port Undefined) = 4322
    /\ port (with_port Null) = 4322
    /\ or_num (or (Num 0) Undefined) 1200 = 1200.
Proof. intros pgs d lo with_port. repeat split. Qed.

Lemma prefix_slash (k : string) : String.prefix "/" ("/" +:+ k) = true.
Proof.
  change (String.prefix "/" ("/" +:+ k)) with (String.prefix "" k).
  destruct k; reflexivity.
Qed.

(** C9: a route key that does not start with [/] navigates to the same
    URL as the key prefixed with [/], namely
    [http://localhost:<port>/<key>], and every normalized path begins
    with [/]. *)
Theorem pageUrl_normalized :
  forall cfg key,
    String.prefix "/" key = false ->
    pageUrl cfg key = pageUrl cfg ("/" +:+ key)
    /\ pageUrl cfg key
       = "http://localhost:" +:+ pretty (port cfg) +:+ "/" +:+ key
    /\ forall k, String.prefix "/" (normalizedPagePath k) = true.
Proof.
  intros cfg key Hkey. unfold pageUrl, normalizedPagePath.
  rewrite Hkey, prefix_slash. split; [|split].
  - reflexivity.
  - reflexivity.
  - intros k. destruct (String.prefix "/" k) eqn:E; [exact E|].
    apply prefix_slash.
Qed.

Lemma pageUrl_normalized_witness :
  pageUrl layered_config "about" = pageUrl layered_config "/about"
  /\ pageUrl layered_config "about" = "http://localhost:4322/about".
Proof.
  destruct (pageUrl_normalized layered_config "about" eq_refl)
    as (Hsame & Hurl & _).
  split; [exact Hsame | exact Hurl].
Defined.

(** ** Running the handler *)

Section Running.

Variable gf : string -> Result string.
Variables (resolve : string -> string -> string)
          (dirname : string -> string)
          (relative : string -> string -> string).
Variable rejects : nat -> bool.
Variable cfg : SnapshotIntegrationConfig.
Variable rootDir : string.

Lemma call_resolved c w :
  rejects (calls w) = false ->
  call rejects c w = (Ok tt, extend w 1 [resolved c]).
Proof.
  intros H. unfold call, extend. rewrite H. simpl.
  do 3 f_equal. lia.
Qed.

Lemma call_rejected c w :
  rejects (calls w) = true ->
  call rejects c w = (Throw (Rejected c), extend w 1 [rejected c]).
Proof.
  intros H. unfold call, extend. rewrite H. simpl.
  do 3 f_equal. lia.
Qed.

Lemma extend_extend w n m evs evs' :
  extend (extend w n evs) m evs' = extend w (n + m) (evs ++ evs').
Proof.
  unfold extend. simpl. f_equal; [lia|]. by rewrite <- app_assoc.
Qed.

Lemma bind_call_resolved {B} c (k : M B) w :
  rejects (calls w) = false ->
  (call rejects c ;; k) w = k (extend w 1 [resolved c]).
Proof. intros H. unfold bind. by rewrite call_resolved. Qed.

Lemma bind_call_rejected {B} c (k : M B) w :
  rejects (calls w) = true ->
  (call rejects c ;; k) w
  = (Throw (Rejected c), extend w 1 [rejected c]).
Proof. intros H. unfold bind. by rewrite call_rejected. Qed.

Lemma extend_0_nil w : extend w 0 [] = w.
Proof.
  destruct w as [n t]. unfold extend. simpl.
  f_equal; [lia | apply app_nil_r].
Qed.

Lemma for_of_cons {A} (x : A) (l : list A) (body : A -> M unit) :
  for_of (x :: l) body = (body x ;; for_of l body).
Proof. reflexivity. Qed.

(** A run of calls that all resolve. *)
Lemma calls_resolved (l : list Call) w :
  (forall n, (calls w <= n < calls w + length l)%nat -> rejects n = false) ->
  for_of l (call rejects) w
  = (Ok tt, extend w (length l) (resolved <$> l)).
Proof.
  revert w. induction l as [|c l IH]; intros w H; simpl.
  - unfold ret. by rewrite extend_0_nil.
  - rewrite bind_call_resolved by (apply H; simpl; lia).
    rewrite IH.
    + rewrite extend_extend. reflexivity.
    + intros n Hn. apply H. simpl in *. lia.
Qed.

(** A run of calls of which the one after [pre] rejects: the calls of
    [pre] are made, the rejected one is made, those of [post] are not. *)
Lemma calls_rejected (pre : list Call) c (post : list Call) w :
  (forall n, (calls w <= n < calls w + length pre)%nat ->
     rejects n = false) ->
  rejects (calls w + length pre)%nat = true ->
  for_of (pre ++ c :: post) (call rejects) w
  = (Throw (Rejected c),
     extend w (S (length pre)) ((resolved <$> pre) ++ [rejected c])).
Proof.
  revert w. induction pre as [|c' pre IH]; intros w H Hc; simpl.
  - rewrite bind_call_rejected; [reflexivity|].
    rewrite <- Hc. f_equal. simpl. lia.
  - rewrite bind_call_resolved by (apply H; simpl; lia).
    rewrite IH.
    + rewrite extend_extend. reflexivity.
    + intros n Hn. apply H. simpl in *. lia.
    + rewrite <- Hc. f_equal. simpl. lia.
Qed.

(** The loop body is its calls in a row, then the log entry. *)
Lemma capture_as_calls pagePath c r w :
  resolveScreenshotConfig gf cfg c = Ok r ->
  capture gf resolve dirname relative rejects cfg rootDir pagePath c w
  = (for_of (captureCalls resolve dirname cfg rootDir pagePath r)
       (call rejects) ;;
     fun w' =>
       (Ok tt,
        extend w' 0 [captureLogged resolve relative rootDir pagePath r])) w.
Proof.
  intros Hr. unfold capture, captureCalls, captureLogged, lift, log.
  unfold bind at 1. rewrite Hr. simpl.
  unfold bind, call, ret, extend. simpl.
  repeat match goal with
    | |- context [rejects ?n] => destruct (rejects n); simpl
    end; try reflexivity.
  do 2 f_equal. lia.
Qed.

Lemma capture_throws_format pagePath c e w :
  resolveScreenshotConfig gf cfg c = Throw e ->
  capture gf resolve dirname relative rejects cfg rootDir pagePath c w
  = (Throw e, w).
Proof.
  intros Hr. unfold capture, lift. unfold bind at 1. by rewrite Hr.
Qed.

(** A capture whose six calls resolve. *)
Lemma capture_resolved pagePath c r w :
  resolveScreenshotConfig gf cfg c = Ok r ->
  (forall n, (calls w <= n < calls w + 6)%nat -> rejects n = false) ->
  capture gf resolve dirname relative rejects cfg rootDir pagePath c w
  = (Ok tt,
     extend w 6
       ((resolved <$> captureCalls resolve dirname cfg rootDir pagePath r)
        ++ [captureLogged resolve relative rootDir pagePath r])).
Proof.
  intros Hr H. rewrite (capture_as_calls _ _ r) by exact Hr.
  unfold bind. rewrite calls_resolved by exact H.
  rewrite extend_extend. reflexivity.
Qed.

(** A capture one of whose calls rejects: nothing of it happens after
    the rejected call, and there is no log entry. *)
Lemma capture_rejected pagePath c r pre x post w :
  resolveScreenshotConfig gf cfg c = Ok r ->
  captureCalls resolve dirname cfg rootDir pagePath r = pre ++ x :: post ->
  (forall n, (calls w <= n < calls w + length pre)%nat ->
     rejects n = false) ->
  rejects (calls w + length pre)%nat = true ->
  capture gf resolve dirname relative rejects cfg rootDir pagePath c w
  = (Throw (Rejected x),
     extend w (S (length pre)) ((resolved <$> pre) ++ [rejected x])).
Proof.
  intros Hr Hsplit H Hx. rewrite (capture_as_calls _ _ r) by exact Hr.
  unfold bind. rewrite Hsplit. by rewrite calls_rejected.
Qed.

(** *** The handler around the loop *)

Lemma handleBuildDone_started :
  cfg_pages cfg <> [] ->
  rejects 0%nat = false ->
  rejects 1%nat = false ->
  handleBuildDone gf resolve dirname relative rejects cfg rootDir initial
  = try_finally
      (for_of (pages cfg)
         (capturePage gf resolve dirname relative rejects cfg rootDir))
      (teardown rejects) (started cfg rootDir).
Proof.
  intros Hne H0 H1. unfold handleBuildDone, pages.
  destruct (cfg_pages cfg) as [|e l]; [congruence|]. cbv zeta.
  change (length (e :: l) =? 0)%nat with false. cbv iota.
  rewrite bind_call_resolved by exact H0.
  rewrite bind_call_resolved by exact H1.
  rewrite extend_extend. reflexivity.
Qed.

Lemma teardown_resolved w :
  (forall n, (calls w <= n < calls w + 2)%nat -> rejects n = false) ->
  teardown rejects w
  = (Ok tt, extend w 2 [resolved BrowserClose; resolved ServerStop]).
Proof.
  intros H. unfold teardown.
  rewrite bind_call_resolved by (apply H; lia).
  rewrite call_resolved by (apply H; simpl; lia).
  by rewrite extend_extend.
Qed.

(** When [browser.close()] rejects, [previewServer.stop()] is not
    reached. *)
Lemma teardown_close_rejected w :
  rejects (calls w) = true ->
  teardown rejects w
  = (Throw (Rejected BrowserClose), extend w 1 [rejected BrowserClose]).
Proof. intros H. unfold teardown. by rewrite bind_call_rejected. Qed.

(** The teardown always starts with [browser.close()], and stops the
    server exactly when that call resolved. *)
Lemma teardown_trace w :
  exists r (b s : bool),
    teardown rejects w
    = (r, extend w (if b then 2 else 1)%nat
            (Called BrowserClose b
             :: if b then [Called ServerStop s] else [])).
Proof.
  destruct (rejects (calls w)) eqn:Hb.
  - exists (Throw (Rejected BrowserClose)), false, false.
    by apply teardown_close_rejected.
  - unfold teardown. rewrite bind_call_resolved by exact Hb.
    destruct (rejects (calls (extend w 1 [resolved BrowserClose]))) eqn:Hs.
    + exists (Throw (Rejected ServerStop)), true, false.
      rewrite call_rejected by exact Hs. by rewrite extend_extend.
    + exists (Ok tt), true, true.
      rewrite call_resolved by exact Hs. by rewrite extend_extend.
Qed.

(** *** What the loop can do *)

Lemma emits_lift {A} P (r : Result A) : emits P (lift r).
Proof.
  intros w. exists 0%nat, []. split; [|constructor].
  simpl. by rewrite extend_0_nil.
Qed.

Lemma emits_ret {A} P (a : A) : emits P (ret a).
Proof.
  intros w. exists 0%nat, []. split; [|constructor].
  simpl. by rewrite extend_0_nil.
Qed.

Lemma emits_bind {A B} P (m : M A) (k : A -> M B) :
  emits P m -> (forall a, emits P (k a)) -> emits P (x <- m ;; k x).
Proof.
  intros Hm Hk w. destruct (Hm w) as (n & evs & Hw & Hevs).
  unfold bind. destruct (m w) as [[a|e] w'] eqn:E; simpl in Hw; subst w'.
  - destruct (Hk a (extend w n evs)) as (n' & evs' & Hw' & Hevs').
    exists (n + n')%nat, (evs ++ evs'). split.
    + rewrite Hw'. apply extend_extend.
    + by apply Forall_app.
  - by exists n, evs.
Qed.

Lemma emits_call P c :
  (forall b, P (Called c b)) -> emits P (call rejects c).
Proof.
  intros HP w. exists 1%nat, [Called c (negb (rejects (calls w)))].
  split; [|by repeat constructor].
  unfold call, extend. destruct (rejects (calls w)); simpl;
    f_equal; lia.
Qed.

Lemma emits_log P level msg :
  P (Logged level msg) -> emits P (log level msg).
Proof.
  intros HP w. exists 0%nat, [Logged level msg].
  split; [|by repeat constructor].
  unfold log, extend. simpl. f_equal; lia.
Qed.

Lemma emits_for_of {A} P (l : list A) (body : A -> M unit) :
  (forall x, emits P (body x)) -> emits P (for_of l body).
Proof.
  intros Hbody. induction l as [|x l IH]; simpl.
  - apply emits_ret.
  - apply emits_bind; [apply Hbody | intros _; exact IH].
Qed.

Lemma emits_capture pagePath c :
  emits not_teardown
    (capture gf resolve dirname relative rejects cfg rootDir pagePath c).
Proof.
  unfold capture. apply emits_bind; [apply emits_lift|]. intros r.
  cbv zeta.
  repeat (apply emits_bind; [by apply emits_call | intros _]).
  by apply emits_log.
Qed.

Lemma emits_capturePage entry :
  emits not_teardown
    (capturePage gf resolve dirname relative rejects cfg rootDir entry).
Proof.
  destruct entry as [pagePath v]. unfold capturePage.
  apply emits_bind; [apply emits_lift|]. intros l.
  apply emits_for_of. intros c. apply emits_capture.
Qed.

(** Once the server has started and the browser has launched, whatever
    the loop does and however it ends, the handler ends with
    [browser.close()] and then, when that resolved,
    [previewServer.stop()]; the loop itself makes neither call. *)
Lemma teardown_after_launch :
  cfg_pages cfg <> [] ->
  rejects 0%nat = false ->
  rejects 1%nat = false ->
  exists r w (evs : list Event) (b s : bool),
    handleBuildDone gf resolve dirname relative rejects cfg rootDir initial
    = (r, w)
    /\ trace w
       = trace (started cfg rootDir) ++ evs
         ++ Called BrowserClose b :: (if b then [Called ServerStop s] else [])
    /\ Forall not_teardown evs.
Proof.
  intros Hne H0 H1. rewrite handleBuildDone_started by assumption.
  unfold try_finally.
  destruct (emits_for_of not_teardown (pages cfg) _ emits_capturePage
              (started cfg rootDir)) as (n & evs & Hw & Hevs).
  destruct (for_of (pages cfg) _ (started cfg rootDir)) as [rb w1].
  simpl in Hw. subst w1.
  destruct (teardown_trace (extend (started cfg rootDir) n evs))
    as (rt & b & s & Ht).
  rewrite Ht.
  exists (match rt with Ok _ => rb | Throw e => Throw e end).
  eexists. exists evs, b, s. split; [by destruct rt|].
  split; [|exact Hevs]. simpl. rewrite <- ?app_assoc. reflexivity.
Qed.

(** An array of one specification: the outer loop body is one capture. *)
Lemma capturePage_one route c w :
  capturePage gf resolve dirname relative rejects cfg rootDir
    (route, Configs [c]) w
  = capture gf resolve dirname relative rejects cfg rootDir route c w.
Proof.
  unfold capturePage, iterate, lift. unfold bind at 1. simpl for_of.
  unfold bind at 1, ret.
  by destruct (capture _ _ _ _ _ _ _ _ _ w) as [[[]|e] w'].
Qed.

(** A route whose value is an array of one specification, with nothing
    rejecting: the capture is made and logged. *)
Lemma array_of_one_captured route c r :
  cfg_pages cfg = [(route, Configs [c])] ->
  resolveScreenshotConfig gf cfg c = Ok r ->
  (forall n, (n < 10)%nat -> rejects n = false) ->
  handleBuildDone gf resolve dirname relative rejects cfg rootDir initial
  = (Ok tt,
     extend (started cfg rootDir) 8
       ((resolved <$> captureCalls resolve dirname cfg rootDir route r)
        ++ [captureLogged resolve relative rootDir route r;
            resolved BrowserClose; resolved ServerStop])).
Proof.
  intros Hpages Hr H.
  rewrite handleBuildDone_started
    by (try apply H; try lia; rewrite Hpages; discriminate).
  unfold try_finally, pages. rewrite Hpages. simpl.
  unfold bind at 1. unfold bind at 1. simpl.
  unfold bind at 1.
  rewrite (capture_resolved _ _ r)
    by (try exact Hr; intros; apply H; simpl in *; lia).
  unfold ret.
  rewrite teardown_resolved by (intros; apply H; simpl in *; lia).
  rewrite !extend_extend. simpl. reflexivity.
Qed.

End Running.

(** ** Claims on the build-done handler *)

(** C8: with an empty pages mapping the handler emits exactly one
    debug-level log entry and returns; it makes no external call: no
    server start, no browser launch, nothing else. *)
Theorem handleBuildDone_no_pages :
  forall gf resolve dirname relative rejects d lo p rootDir w,
    handleBuildDone gf resolve dirname relative rejects
      {| cfg_pages := []; cfg_defaults := d;
         cfg_launchOptions := lo; cfg_port := p |} rootDir w
    = (Ok tt,
       {| calls := calls w;
          trace :=
            trace w
            ++ [Logged Debug
                  "No pages configured for screenshot generation. Skipping..."]
       |}).
Proof. reflexivity. Qed.

(** C4 fails on the code where the browser launch rejects: the preview
    server has been started, [launch] is outside the [try], and the
    handler throws with neither [browser.close()] nor
    [previewServer.stop()] called. *)
Theorem launch_rejected_server_not_stopped :
  forall gf resolve dirname relative rejects cfg rootDir,
    cfg_pages cfg <> [] ->
    rejects 0%nat = false ->
    rejects 1%nat = true ->
    handleBuildDone gf resolve dirname relative rejects cfg rootDir initial
    = (Throw (Rejected (Launch (launchOptions cfg))),
       {| calls := 2;
          trace := [resolved (Preview rootDir (port cfg));
                    rejected (Launch (launchOptions cfg))] |}).
Proof.
  intros gf resolve dirname relative rejects cfg rootDir Hne H0 H1.
  unfold handleBuildDone, pages.
  destruct (cfg_pages cfg) as [|e l]; [congruence|]. cbv zeta.
  change (length (e :: l) =? 0)%nat with false. cbv iota.
  rewrite bind_call_resolved by exact H0.
  rewrite bind_call_rejected by exact H1.
  reflexivity.
Qed.

Lemma launch_rejected_server_not_stopped_witness :
  run (rejects_at 1) array_usage
  = (Throw (Rejected (Launch {[ "headless" := VBool true ]})),
     {| calls := 2;
        trace := [resolved (Preview "/site" 4322);
                  rejected (Launch {[ "headless" := VBool true ]})] |}).
Proof.
  apply (launch_rejected_server_not_stopped getFormat posix_resolve
           posix_dirname posix_relative (rejects_at 1) array_usage "/site").
  - discriminate.
  - reflexivity.
  - reflexivity.
Defined.

(** C5 fails on the code: a route whose value is a bare specification is
    not iterable, so [for ... of] throws before anything is captured; the
    handler tears down and throws, with no page opened and no
    screenshot taken. *)
Theorem bare_specification_not_iterable :
  forall gf resolve dirname relative rejects cfg rootDir route c rest,
    cfg_pages cfg = (route, Single c) :: rest ->
    (forall n, (n < 4)%nat -> rejects n = false) ->
    handleBuildDone gf resolve dirname relative rejects cfg rootDir initial
    = (Throw NotIterable,
       {| calls := 4;
          trace := [resolved (Preview rootDir (port cfg));
                    resolved (Launch (launchOptions cfg));
                    resolved BrowserClose;
                    resolved ServerStop] |}).
Proof.
  intros gf resolve dirname relative rejects cfg rootDir route c rest
    Hpages H.
  rewrite handleBuildDone_started
    by (try apply H; try lia; rewrite Hpages; discriminate).
  unfold try_finally, pages. rewrite Hpages. simpl for_of.
  unfold bind at 1. unfold capturePage, iterate, lift. unfold bind at 1.
  rewrite teardown_resolved by (intros; apply H; simpl in *; lia).
  reflexivity.
Qed.

Lemma bare_specification_not_iterable_witness :
  run all_resolve documented_usage
  = (Throw NotIterable,
     {| calls := 4;
        trace := [resolved (Preview "/site" 4322);
                  resolved (Launch {[ "headless" := VBool true ]});
                  resolved BrowserClose;
                  resolved ServerStop] |}).
Proof.
  apply (bare_specification_not_iterable getFormat posix_resolve
           posix_dirname posix_relative all_resolve documented_usage
           "/site" "/about" about_page []).
  - reflexivity.
  - reflexivity.
Defined.

(** C6: two routes of one specification each (and any routes after
    them); every call up to the second capture resolves, one call of the
    second capture rejects, and the teardown resolves.  Then the handler
    throws that rejection, and the trace is exactly: server start, browser
    launch, the whole first capture with its screenshot and its log
    entry, the calls of the second capture up to the rejected one, the
    browser closed, the server stopped.  Nothing of the second capture
    after the rejected call and nothing of a later route happens, and the
    first capture is not undone. *)
Theorem second_capture_rejected :
  forall gf resolve dirname relative rejects cfg rootDir
         route1 c1 r1 route2 c2 r2 rest pre x post,
    cfg_pages cfg
    = (route1, Configs [c1]) :: (route2, Configs [c2]) :: rest ->
    resolveScreenshotConfig gf cfg c1 = Ok r1 ->
    resolveScreenshotConfig gf cfg c2 = Ok r2 ->
    captureCalls resolve dirname cfg rootDir route2 r2
    = pre ++ x :: post ->
    (forall n, (n < 8 + length pre)%nat -> rejects n = false) ->
    rejects (8 + length pre)%nat = true ->
    rejects (9 + length pre)%nat = false ->
    rejects (10 + length pre)%nat = false ->
    let first := captureCalls resolve dirname cfg rootDir route1 r1 in
    let outcome :=
      handleBuildDone gf resolve dirname relative rejects cfg rootDir
        initial in
    outcome
    = (Throw (Rejected x),
       {| calls := 11 + length pre;
          trace :=
            [resolved (Preview rootDir (port cfg));
             resolved (Launch (launchOptions cfg))]
            ++ (resolved <$> first)
            ++ [captureLogged resolve relative rootDir route1 r1]
            ++ (resolved <$> pre)
            ++ [rejected x; resolved BrowserClose; resolved ServerStop] |})
    /\ resolved (Screenshot (r_screenshotOptions r1)) ∈ trace outcome.2.
Proof.
  intros gf resolve dirname relative rejects cfg rootDir
    route1 c1 r1 route2 c2 r2 rest pre x post
    Hpages Hr1 Hr2 Hsplit Hbefore Hx Hclose Hstop first outcome.
  assert (Hrun : outcome
    = (Throw (Rejected x),
       {| calls := 11 + length pre;
          trace :=
            [resolved (Preview rootDir (port cfg));
             resolved (Launch (launchOptions cfg))]
            ++ (resolved <$> first)
            ++ [captureLogged resolve relative rootDir route1 r1]
            ++ (resolved <$> pre)
            ++ [rejected x; resolved BrowserClose; resolved ServerStop] |})).
  { subst outcome first.
    rewrite handleBuildDone_started
      by (try (apply Hbefore; lia); rewrite Hpages; discriminate).
    unfold try_finally, pages. rewrite Hpages, !for_of_cons.
    unfold bind at 1. rewrite capturePage_one.
    rewrite capture_resolved with (r := r1)
      by (try exact Hr1; intros n Hn; apply Hbefore; simpl in Hn; lia).
    unfold bind at 1. rewrite capturePage_one.
    rewrite capture_rejected with (r := r2) (pre := pre) (x := x) (post := post)
      by (try assumption; intros n Hn; apply Hbefore; simpl in Hn; lia).
    rewrite teardown_resolved.
    - rewrite !extend_extend. unfold extend, started, extend, initial.
      simpl. do 2 f_equal; [lia|].
      rewrite <- !app_assoc. reflexivity.
    - intros n Hn. simpl in Hn.
      assert (n = 9 + length pre \/ n = 10 + length pre)%nat as [-> | ->]
        by lia; assumption. }
  split; [exact Hrun|].
  rewrite Hrun. simpl. subst first. unfold captureCalls. simpl.
  do 6 apply list_elem_of_further. apply list_elem_of_here.
Qed.

Lemma second_capture_rejected_witness :
  run (rejects_at 12) two_routes
  = (Throw (Rejected (Screenshot (r_screenshotOptions about_resolved))),
     {| calls := 15;
        trace :=
          [resolved (Preview "/site" 4322);
           resolved (Launch {[ "headless" := VBool true ]});
           resolved (Mkdir "/site/og");
           resolved NewPage;
           resolved (SetViewport 1200 630);
           resolved (Goto "http://localhost:4322/"
                       {[ "waitUntil" := VStr "networkidle2" ]});
           resolved (Screenshot (r_screenshotOptions home_resolved));
           resolved PageClose;
           Logged Info "📸 Screenshot generated: / → og/home.png";
           resolved (Mkdir "/site/public/images");
           resolved NewPage;
           resolved (SetViewport 1920 1080);
           resolved (Goto "http://localhost:4322/about"
                       {[ "waitUntil" := VStr "networkidle2" ]});
           rejected (Screenshot (r_screenshotOptions about_resolved));
           resolved BrowserClose;
           resolved ServerStop] |})
  /\ resolved (Screenshot (r_screenshotOptions home_resolved))
     ∈ trace (run (rejects_at 12) two_routes).2.
Proof.
  apply (second_capture_rejected getFormat posix_resolve posix_dirname
           posix_relative (rejects_at 12) two_routes "/site"
           "/" home_page home_resolved "about" about_page about_resolved []
           [ Mkdir "/site/public/images"; NewPage; SetViewport 1920 1080;
             Goto "http://localhost:4322/about"
               {[ "waitUntil" := VStr "networkidle2" ]} ]
           (Screenshot (r_screenshotOptions about_resolved))
           [ PageClose ]).
  - reflexivity.
  - reflexivity.
  - reflexivity.
  - reflexivity.
  - intros n Hn. apply Nat.eqb_neq. simpl in Hn. lia.
  - reflexivity.
  - reflexivity.
  - reflexivity.
Defined.

(** * Further properties of the handler *)

Section Outcome.

Variable gf : string -> Result string.
Variables (resolve : string -> string -> string)
          (dirname : string -> string)
          (relative : string -> string -> string).
Variable rejects : nat -> bool.
Variable cfg : SnapshotIntegrationConfig.
Variable rootDir : string.

Lemma for_of_app {A} (l1 l2 : list A) (body : A -> M unit) w :
  for_of (l1 ++ l2) body w
  = match for_of l1 body w with
    | (Ok _, w1) => for_of l2 body w1
    | (Throw e, w1) => (Throw e, w1)
    end.
Proof.
  revert w. induction l1 as [|x l1 IH]; intros w; simpl.
  - reflexivity.
  - unfold bind. destruct (body x w) as [[[]|e] w1]; [apply IH | reflexivity].
Qed.

(** The three ways the [finally] block can end. *)
Lemma teardown_cases w :
  teardown rejects w
  = if rejects (calls w) then
      (Throw (Rejected BrowserClose), extend w 1 [rejected BrowserClose])
    else if rejects (calls w + 1)%nat then
      (Throw (Rejected ServerStop),
       extend w 2 [resolved BrowserClose; rejected ServerStop])
    else
      (Ok tt, extend w 2 [resolved BrowserClose; resolved ServerStop]).
Proof.
  destruct (rejects (calls w)) eqn:Hb.
  - by apply teardown_close_rejected.
  - unfold teardown. rewrite bind_call_resolved by exact Hb.
    destruct (rejects (calls w + 1)%nat) eqn:Hs.
    + rewrite call_rejected by exact Hs. by rewrite extend_extend.
    + rewrite call_resolved by exact Hs. by rewrite extend_extend.
Qed.

(** The handler up to the loop: the server start and the browser launch
    can each reject, and then nothing else is called. *)
Lemma handleBuildDone_cases :
  cfg_pages cfg <> [] ->
  handleBuildDone gf resolve dirname relative rejects cfg rootDir initial
  = if rejects 0%nat then
      (Throw (Rejected (Preview rootDir (port cfg))),
       extend initial 1 [rejected (Preview rootDir (port cfg))])
    else if rejects 1%nat then
      (Throw (Rejected (Launch (launchOptions cfg))),
       extend initial 2
         [resolved (Preview rootDir (port cfg));
          rejected (Launch (launchOptions cfg))])
    else
      try_finally
        (for_of (pages cfg)
           (capturePage gf resolve dirname relative rejects cfg rootDir))
        (teardown rejects) (started cfg rootDir).
Proof.
  intros Hne.
  destruct (rejects 0%nat) eqn:H0; [|destruct (rejects 1%nat) eqn:H1].
  - unfold handleBuildDone, pages.
    destruct (cfg_pages cfg) as [|e l]; [congruence|]. cbv zeta.
    change (length (e :: l) =? 0)%nat with false. cbv iota.
    by rewrite bind_call_rejected.
  - unfold handleBuildDone, pages.
    destruct (cfg_pages cfg) as [|e l]; [congruence|]. cbv zeta.
    change (length (e :: l) =? 0)%nat with false. cbv iota.
    rewrite bind_call_resolved by exact H0.
    rewrite bind_call_rejected by exact H1.
    by rewrite extend_extend.
  - by apply handleBuildDone_started.
Qed.

(** Every run of the handler has one of five shapes. *)
Lemma run_shape :
  let run :=
    handleBuildDone gf resolve dirname relative rejects cfg rootDir initial in
  let server := Preview rootDir (port cfg) in
  let browser := Launch (launchOptions cfg) in
  (cfg_pages cfg = [] /\ run.1 = Ok tt
   /\ exists msg, trace run.2 = [Logged Debug msg])
  \/ (run.1 = Throw (Rejected server) /\ trace run.2 = [rejected server])
  \/ (run.1 = Throw (Rejected browser)
      /\ trace run.2 = [resolved server; rejected browser])
  \/ (exists evs,
        Forall not_teardown evs
        /\ run.1 = Throw (Rejected BrowserClose)
        /\ trace run.2
           = [resolved server; resolved browser] ++ evs
             ++ [rejected BrowserClose])
  \/ (exists evs (s : bool),
        Forall not_teardown evs
        /\ (s = false -> run.1 = Throw (Rejected ServerStop))
        /\ trace run.2
           = [resolved server; resolved browser] ++ evs
             ++ [resolved BrowserClose; Called ServerStop s]).
Proof.
  intros run server browser. subst run.
  destruct (cfg_pages cfg) as [|e l] eqn:Hpages.
  { left. split; [reflexivity|].
    unfold handleBuildDone, pages. rewrite Hpages. simpl. eauto. }
  right. rewrite handleBuildDone_cases by (rewrite Hpages; discriminate).
  destruct (rejects 0%nat); [by left|]. right.
  destruct (rejects 1%nat); [by left|]. right.
  unfold try_finally.
  destruct (emits_for_of not_teardown (pages cfg) _
              (emits_capturePage gf resolve dirname relative rejects cfg
                 rootDir) (started cfg rootDir)) as (n & evs & Hw & Hevs).
  destruct (for_of (pages cfg) _ (started cfg rootDir)) as [rb w1].
  simpl in Hw. subst w1. rewrite teardown_cases.
  destruct (rejects (calls (extend (started cfg rootDir) n evs))).
  { left. exists evs. split; [exact Hevs|]. split; [reflexivity|].
    simpl. by rewrite <- ?app_assoc. }
  right.
  destruct (rejects (calls (extend (started cfg rootDir) n evs) + 1)%nat).
  - exists evs, false. split; [exact Hevs|]. split; [reflexivity|].
    simpl. by rewrite <- ?app_assoc.
  - exists evs, true. split; [exact Hevs|]. split; [discriminate|].
    simpl. by rewrite <- ?app_assoc.
Qed.

End Outcome.

(** ** Failures around the loop *)

(** X1: with at least one route, when the preview server fails to start
    the handler throws that rejection at once: the browser is not
    launched and nothing is torn down. *)
Theorem preview_rejected_nothing_started :
  forall gf resolve dirname relative rejects cfg rootDir,
    cfg_pages cfg <> [] ->
    rejects 0%nat = true ->
    handleBuildDone gf resolve dirname relative rejects cfg rootDir initial
    = (Throw (Rejected (Preview rootDir (port cfg))),
       {| calls := 1;
          trace := [rejected (Preview rootDir (port cfg))] |}).
Proof.
  intros gf resolve dirname relative rejects cfg rootDir Hne H0.
  rewrite handleBuildDone_cases by exact Hne. by rewrite H0.
Qed.

Lemma preview_rejected_nothing_started_witness :
  run (rejects_at 0) two_routes
  = (Throw (Rejected (Preview "/site" 4322)),
     {| calls := 1; trace := [rejected (Preview "/site" 4322)] |}).
Proof.
  apply (preview_rejected_nothing_started getFormat posix_resolve
           posix_dirname posix_relative (rejects_at 0) two_routes "/site").
  - discriminate.
  - reflexivity.
Defined.

(** X2: in every run in which [browser.close()] rejects, the handler
    throws that rejection, whatever the loop returned or threw, the
    rejected call is the last event, and [previewServer.stop()] is never
    called. *)
Theorem close_rejected_skips_server_stop :
  forall gf resolve dirname relative rejects cfg rootDir,
    let run :=
      handleBuildDone gf resolve dirname relative rejects cfg rootDir
        initial in
    rejected BrowserClose ∈ trace run.2 ->
    run.1 = Throw (Rejected BrowserClose)
    /\ last (trace run.2) = Some (rejected BrowserClose)
    /\ forall s, Called ServerStop s ∉ trace run.2.
Proof.
  intros gf resolve dirname relative rejects cfg rootDir run Hin.
  destruct (run_shape gf resolve dirname relative rejects cfg rootDir)
    as [(_ & _ & msg & Ht) | [(_ & Ht) | [(_ & Ht) |
        [(evs & Hevs & Hr & Ht) | (evs & s & Hevs & _ & Ht)]]]];
    fold run in Ht; try fold run in Hr; rewrite Ht in Hin |- *.
  - apply list_elem_of_singleton in Hin. discriminate.
  - apply list_elem_of_singleton in Hin. discriminate.
  - apply elem_of_cons in Hin as [Hin|Hin]; [discriminate|].
    apply list_elem_of_singleton in Hin. discriminate.
  - split; [exact Hr|]. split.
    + by rewrite !app_assoc, last_snoc.
    + intros s Hs. rewrite !elem_of_app in Hs.
      destruct Hs as [Hs | [Hs | Hs]].
      * apply elem_of_cons in Hs as [Hs|Hs]; [discriminate|].
        apply list_elem_of_singleton in Hs. discriminate.
      * rewrite Forall_forall in Hevs. by apply Hevs in Hs.
      * apply list_elem_of_singleton in Hs. discriminate.
  - exfalso. rewrite !elem_of_app in Hin.
    destruct Hin as [Hin | [Hin | Hin]].
    + apply elem_of_cons in Hin as [Hin|Hin]; [discriminate|].
      apply list_elem_of_singleton in Hin. discriminate.
    + rewrite Forall_forall in Hevs. by apply Hevs in Hin.
    + apply elem_of_cons in Hin as [Hin|Hin]; [discriminate|].
      apply list_elem_of_singleton in Hin. discriminate.
Qed.

Lemma close_rejected_skips_server_stop_witness :
  (run (rejects_at 8) array_usage).1 = Throw (Rejected BrowserClose)
  /\ last (trace (run (rejects_at 8) array_usage).2)
     = Some (rejected BrowserClose)
  /\ forall s, Called ServerStop s ∉ trace (run (rejects_at 8) array_usage).2.
Proof.
  apply (close_rejected_skips_server_stop getFormat posix_resolve
           posix_dirname posix_relative (rejects_at 8) array_usage "/site").
  vm_compute trace. do 9 apply list_elem_of_further. apply list_elem_of_here.
Defined.

(** X3: in every run, [previewServer.stop()] is called at most once, as
    the very last call, directly after a [browser.close()] that
    resolved; before these two the handler makes no teardown call. *)
Theorem server_stopped_last_after_close :
  forall gf resolve dirname relative rejects cfg rootDir s,
    let run :=
      handleBuildDone gf resolve dirname relative rejects cfg rootDir
        initial in
    Called ServerStop s ∈ trace run.2 ->
    exists before,
      trace run.2 = before ++ [resolved BrowserClose; Called ServerStop s]
      /\ Forall not_teardown before.
Proof.
  intros gf resolve dirname relative rejects cfg rootDir s run Hin.
  destruct (run_shape gf resolve dirname relative rejects cfg rootDir)
    as [(_ & _ & msg & Ht) | [(_ & Ht) | [(_ & Ht) |
        [(evs & Hevs & Hr & Ht) | (evs & s' & Hevs & _ & Ht)]]]];
    fold run in Ht; rewrite Ht in Hin |- *.
  - apply list_elem_of_singleton in Hin. discriminate.
  - apply list_elem_of_singleton in Hin. discriminate.
  - apply elem_of_cons in Hin as [Hin|Hin]; [discriminate|].
    apply list_elem_of_singleton in Hin. discriminate.
  - exfalso. rewrite !elem_of_app in Hin.
    destruct Hin as [Hin | [Hin | Hin]].
    + apply elem_of_cons in Hin as [Hin|Hin]; [discriminate|].
      apply list_elem_of_singleton in Hin. discriminate.
    + rewrite Forall_forall in Hevs. by apply Hevs in Hin.
    + apply list_elem_of_singleton in Hin. discriminate.
  - assert (s' = s) as ->.
    { rewrite !elem_of_app in Hin. destruct Hin as [Hin | [Hin | Hin]].
      - apply elem_of_cons in Hin as [Hin|Hin]; [discriminate|].
        apply list_elem_of_singleton in Hin. discriminate.
      - rewrite Forall_forall in Hevs. by apply Hevs in Hin.
      - apply elem_of_cons in Hin as [Hin|Hin]; [discriminate|].
        apply list_elem_of_singleton in Hin. congruence. }
    eexists. split; [by rewrite app_assoc|].
    apply Forall_app. split; [|exact Hevs]. by repeat constructor.
Qed.

Lemma server_stopped_last_after_close_witness :
  exists before,
    trace (run (rejects_at 5) array_usage).2
    = before ++ [resolved BrowserClose; Called ServerStop true]
    /\ Forall not_teardown before.
Proof.
  apply (server_stopped_last_after_close getFormat posix_resolve
           posix_dirname posix_relative (rejects_at 5) array_usage "/site").
  vm_compute trace. do 7 apply list_elem_of_further. apply list_elem_of_here.
Defined.

(** ** The loop *)

Section Loop.

Variable gf : string -> Result string.
Variables (resolve : string -> string -> string)
          (dirname : string -> string)
          (relative : string -> string -> string).
Variable rejects : nat -> bool.
Variable cfg : SnapshotIntegrationConfig.
Variable rootDir : string.

Lemma length_captured p :
  length (captured resolve dirname relative cfg rootDir p) = 7%nat.
Proof. reflexivity. Qed.

(** The inner loop over an array whose specifications resolve, with no
    call rejecting. *)
Lemma captures_run route l rs w :
  resolveAll gf cfg l = Some rs ->
  (forall n, (calls w <= n < calls w + 6 * length rs)%nat ->
     rejects n = false) ->
  for_of l (capture gf resolve dirname relative rejects cfg rootDir route) w
  = (Ok tt,
     extend w (6 * length rs)
       (flat_map (captured resolve dirname relative cfg rootDir)
          (pair route <$> rs))).
Proof.
  revert rs w. induction l as [|c l IH]; intros rs w Hrs H.
  - injection Hrs as <-. simpl. unfold ret. by rewrite extend_0_nil.
  - simpl in Hrs.
    destruct (resolveScreenshotConfig gf cfg c) as [r|] eqn:Hr; [|done].
    destruct (resolveAll gf cfg l) as [rs'|] eqn:Hl; [|done].
    injection Hrs as <-. rewrite for_of_cons. unfold bind.
    rewrite capture_resolved with (r := r)
      by (try exact Hr; intros n Hn; apply H; simpl length; lia).
    rewrite (IH rs') by (try done; intros n Hn; apply H; simpl in *; lia).
    rewrite extend_extend.
    replace (6 + 6 * length rs')%nat with (6 * length (r :: rs'))%nat
      by (simpl length; lia).
    reflexivity.
Qed.

(** The outer loop over routes whose arrays resolve, with no call
    rejecting. *)
Lemma loop_run entries l w :
  plan gf cfg entries = Some l ->
  (forall n, (calls w <= n < calls w + 6 * length l)%nat ->
     rejects n = false) ->
  for_of entries
    (capturePage gf resolve dirname relative rejects cfg rootDir) w
  = (Ok tt,
     extend w (6 * length l)
       (flat_map (captured resolve dirname relative cfg rootDir) l)).
Proof.
  revert l w. induction entries as [|[route v] entries IH]; intros l w Hl H.
  - injection Hl as <-. simpl. unfold ret. by rewrite extend_0_nil.
  - simpl in Hl. destruct v as [cs| |]; try done.
    destruct (resolveAll gf cfg cs) as [rs|] eqn:Hrs; [|done].
    destruct (plan gf cfg entries) as [more|] eqn:Hmore; [|done].
    injection Hl as <-. rewrite for_of_cons. unfold bind at 1.
    unfold capturePage at 1. unfold iterate, lift. unfold bind at 1.
    rewrite length_app, length_fmap in H.
    rewrite captures_run with (rs := rs)
      by (try done; intros n Hn; apply H; lia).
    rewrite (IH more)
      by (try done; intros n Hn; apply H; simpl in *; lia).
    rewrite extend_extend, flat_map_app, length_app, length_fmap.
    replace (6 * length rs + 6 * length more)%nat
      with (6 * (length rs + length more))%nat by lia.
    reflexivity.
Qed.

(** Routes whose arrays are all empty plan no capture. *)
Lemma plan_empty_arrays entries :
  Forall (fun e : string * PageValue => e.2 = Configs []) entries ->
  plan gf cfg entries = Some [].
Proof.
  induction 1 as [|[route v] entries Hv _ IH]; [done|].
  simpl in Hv. subst v. simpl. by rewrite IH.
Qed.

End Loop.

(** X4: when every route has an array, every specification resolves and
    no call rejects, the handler returns and its trace is exactly: server
    start, browser launch, then one complete capture (directory, new
    page, viewport, navigation, screenshot, page closed, log entry) per
    specification, route by route in the order of the mapping and within
    a route in the order of the array, then browser closed and server
    stopped. *)
Theorem unrejected_run_in_order :
  forall gf resolve dirname relative rejects cfg rootDir l,
    cfg_pages cfg <> [] ->
    plan gf cfg (cfg_pages cfg) = Some l ->
    (forall n, (n < 4 + 6 * length l)%nat -> rejects n = false) ->
    handleBuildDone gf resolve dirname relative rejects cfg rootDir initial
    = (Ok tt,
       {| calls := 4 + 6 * length l;
          trace :=
            [resolved (Preview rootDir (port cfg));
             resolved (Launch (launchOptions cfg))]
            ++ flat_map (captured resolve dirname relative cfg rootDir) l
            ++ [resolved BrowserClose; resolved ServerStop] |}).
Proof.
  intros gf resolve dirname relative rejects cfg rootDir l Hne Hplan H.
  rewrite handleBuildDone_started by (try exact Hne; apply H; lia).
  unfold try_finally, pages.
  rewrite loop_run with (l := l)
    by (try exact Hplan; intros n Hn; apply H; simpl in Hn; lia).
  rewrite teardown_resolved by (intros n Hn; apply H; simpl in Hn; lia).
  rewrite !extend_extend. unfold extend, started, extend, initial. simpl.
  do 2 f_equal. lia.
Qed.

Lemma unrejected_run_in_order_witness :
  run all_resolve two_routes
  = (Ok tt,
     {| calls := 16;
        trace :=
          [resolved (Preview "/site" 4322);
           resolved (Launch {[ "headless" := VBool true ]})]
          ++ captured posix_resolve posix_dirname posix_relative two_routes
               "/site" ("/", home_resolved)
          ++ captured posix_resolve posix_dirname posix_relative two_routes
               "/site" ("about", about_resolved)
          ++ [resolved BrowserClose; resolved ServerStop] |}).
Proof.
  apply (unrejected_run_in_order getFormat posix_resolve posix_dirname
           posix_relative all_resolve two_routes "/site"
           [("/", home_resolved); ("about", about_resolved)]).
  - discriminate.
  - reflexivity.
  - reflexivity.
Defined.

(** X5: routes whose arrays are all empty are not skipped like an empty
    mapping: the server is started and the browser launched, nothing is
    captured or logged, and both are torn down again. *)
Theorem empty_arrays_start_and_stop :
  forall gf resolve dirname relative rejects cfg rootDir,
    cfg_pages cfg <> [] ->
    Forall (fun e : string * PageValue => e.2 = Configs []) (cfg_pages cfg) ->
    (forall n, (n < 4)%nat -> rejects n = false) ->
    handleBuildDone gf resolve dirname relative rejects cfg rootDir initial
    = (Ok tt,
       {| calls := 4;
          trace := [resolved (Preview rootDir (port cfg));
                    resolved (Launch (launchOptions cfg));
                    resolved BrowserClose;
                    resolved ServerStop] |}).
Proof.
  intros gf resolve dirname relative rejects cfg rootDir Hne Hempty H.
  rewrite handleBuildDone_started by (try exact Hne; apply H; lia).
  unfold try_finally, pages.
  rewrite loop_run with (l := [])
    by (try (by apply plan_empty_arrays); intros n Hn; simpl in Hn; lia).
  rewrite teardown_resolved by (intros n Hn; apply H; simpl in Hn; lia).
  reflexivity.
Qed.

Lemma empty_arrays_start_and_stop_witness :
  run all_resolve empty_array_usage
  = (Ok tt,
     {| calls := 4;
        trace := [resolved (Preview "/site" 4322);
                  resolved (Launch {[ "headless" := VBool true ]});
                  resolved BrowserClose;
                  resolved ServerStop] |}).
Proof.
  apply (empty_arrays_start_and_stop getFormat posix_resolve posix_dirname
           posix_relative all_resolve empty_array_usage "/site").
  - discriminate.
  - repeat constructor.
  - reflexivity.
Defined.

(** X6: an output path whose format [getFormat] rejects is found only
    inside the loop: for the first specification of the first route the
    server has been started and the browser launched by then, no
    directory is created and no page opened, both are torn down, and the
    handler throws the exception of [getFormat]; the specifications and
    routes after it are not looked at. *)
Theorem format_error_after_start :
  forall gf resolve dirname relative rejects cfg rootDir route c cs rest e,
    cfg_pages cfg = (route, Configs (c :: cs)) :: rest ->
    gf (outputPath c) = Throw e ->
    (forall n, (n < 4)%nat -> rejects n = false) ->
    handleBuildDone gf resolve dirname relative rejects cfg rootDir initial
    = (Throw e,
       {| calls := 4;
          trace := [resolved (Preview rootDir (port cfg));
                    resolved (Launch (launchOptions cfg));
                    resolved BrowserClose;
                    resolved ServerStop] |}).
Proof.
  intros gf resolve dirname relative rejects cfg rootDir route c cs rest e
    Hpages Hfmt H.
  rewrite handleBuildDone_started
    by (try apply H; try lia; rewrite Hpages; discriminate).
  unfold try_finally, pages. rewrite Hpages, for_of_cons.
  unfold bind at 1. unfold capturePage at 1. unfold iterate, lift.
  unfold bind at 1. rewrite for_of_cons. unfold bind at 1.
  rewrite capture_throws_format with (e := e)
    by (by apply resolveScreenshotConfig_Throw).
  rewrite teardown_resolved by (intros n Hn; apply H; simpl in Hn; lia).
  reflexivity.
Qed.

Lemma format_error_after_start_witness :
  run all_resolve gif_usage
  = (Throw (FormatError "og/home.gif"),
     {| calls := 4;
        trace := [resolved (Preview "/site" 4322);
                  resolved (Launch {[ "headless" := VBool true ]});
                  resolved BrowserClose;
                  resolved ServerStop] |}).
Proof.
  apply (format_error_after_start getFormat posix_resolve posix_dirname
           posix_relative all_resolve gif_usage "/site" "/" gif_page
           [home_page] [("/about", Configs [about_page])]).
  - reflexivity.
  - reflexivity.
  - reflexivity.
Defined.

(** X7: the first failure ends the loop.  When the handler throws for a
    non-empty pages mapping, and what it throws is not a rejection of the
    teardown itself, then appending further routes to the mapping changes
    nothing: the same exception is thrown after the same calls, and none
    of the appended routes is visited. *)
Theorem later_routes_irrelevant :
  forall gf resolve dirname relative rejects rootDir l rest d lo p e w,
    l <> [] ->
    handleBuildDone gf resolve dirname relative rejects
      {| cfg_pages := l; cfg_defaults := d;
         cfg_launchOptions := lo; cfg_port := p |} rootDir initial
    = (Throw e, w) ->
    e <> Rejected BrowserClose ->
    e <> Rejected ServerStop ->
    handleBuildDone gf resolve dirname relative rejects
      {| cfg_pages := l ++ rest; cfg_defaults := d;
         cfg_launchOptions := lo; cfg_port := p |} rootDir initial
    = (Throw e, w).
Proof.
  intros gf resolve dirname relative rejects rootDir l rest d lo p e w
    Hne Hrun Hclose Hstop.
  set (cfg1 := {| cfg_pages := l; cfg_defaults := d;
                  cfg_launchOptions := lo; cfg_port := p |}) in *.
  set (cfg2 := {| cfg_pages := l ++ rest; cfg_defaults := d;
                  cfg_launchOptions := lo; cfg_port := p |}).
  rewrite handleBuildDone_cases in Hrun by exact Hne.
  rewrite handleBuildDone_cases
    by (simpl; intros Happ; apply app_eq_nil in Happ as [? _]; done).
  destruct (rejects 0%nat); [exact Hrun|].
  destruct (rejects 1%nat); [exact Hrun|].
  change (started cfg2 rootDir) with (started cfg1 rootDir).
  change (capturePage gf resolve dirname relative rejects cfg2 rootDir)
    with (capturePage gf resolve dirname relative rejects cfg1 rootDir).
  change (pages cfg2) with (l ++ rest). change (pages cfg1) with l in Hrun.
  unfold try_finally in *. rewrite for_of_app.
  destruct (for_of l _ (started cfg1 rootDir)) as [[[]|e0] w1];
    [|exact Hrun].
  exfalso. rewrite teardown_cases in Hrun.
  destruct (rejects (calls w1)); [congruence|].
  destruct (rejects (calls w1 + 1)%nat); congruence.
Qed.

Lemma later_routes_irrelevant_witness :
  run (rejects_at 5)
    {| cfg_pages :=
         [("/about", Configs [about_page])]
         ++ [("/", Configs [home_page]); ("/missing", Single home_page)];
       cfg_defaults := None; cfg_launchOptions := None;
       cfg_port := Undefined |}
  = (Throw (Rejected (Goto "http://localhost:4322/about"
                        {[ "waitUntil" := VStr "networkidle2" ]})),
     {| calls := 8;
        trace :=
          [resolved (Preview "/site" 4322);
           resolved (Launch {[ "headless" := VBool true ]});
           resolved (Mkdir "/site/public/images");
           resolved NewPage;
           resolved (SetViewport 1920 1080);
           rejected (Goto "http://localhost:4322/about"
                       {[ "waitUntil" := VStr "networkidle2" ]});
           resolved BrowserClose;
           resolved ServerStop] |}).
Proof.
  apply (later_routes_irrelevant getFormat posix_resolve posix_dirname
           posix_relative (rejects_at 5) "/site").
  - discriminate.
  - vm_compute. reflexivity.
  - discriminate.
  - discriminate.
Defined.

(** ** What every run is made of *)

Section Provenance.

Variable gf : string -> Result string.
Variables (resolve : string -> string -> string)
          (dirname : string -> string)
          (relative : string -> string -> string).
Variable rejects : nat -> bool.
Variable cfg : SnapshotIntegrationConfig.
Variable rootDir : string.
Variable P : Event -> Prop.

Lemma emits_for_of_elem {A} (l : list A) (body : A -> M unit) :
  (forall x, x ∈ l -> emits P (body x)) -> emits P (for_of l body).
Proof.
  induction l as [|x l IH]; intros Hbody; simpl.
  - apply emits_ret.
  - apply emits_bind.
    + apply Hbody. by left.
    + intros _. apply IH. intros y Hy. apply Hbody. by right.
Qed.

Lemma emits_try_finally {A} (body : M A) (cleanup : M unit) :
  emits P body -> emits P cleanup -> emits P (try_finally body cleanup).
Proof.
  intros Hbody Hcleanup w. unfold try_finally.
  destruct (Hbody w) as (n & evs & Hw & Hevs).
  destruct (body w) as [r w1]. simpl in Hw. subst w1.
  destruct (Hcleanup (extend w n evs)) as (n' & evs' & Hw' & Hevs').
  destruct (cleanup (extend w n evs)) as [[[]|e] w2]; simpl in Hw'; subst w2;
    exists (n + n')%nat, (evs ++ evs');
    (split; [apply extend_extend | by apply Forall_app]).
Qed.

(** The events of one capture are those of what its specification
    resolves to. *)
Lemma emits_capture_of route c :
  (forall r,
     resolveScreenshotConfig gf cfg c = Ok r ->
     (forall x b, x ∈ captureCalls resolve dirname cfg rootDir route r ->
        P (Called x b))
     /\ P (captureLogged resolve relative rootDir route r)) ->
  emits P (capture gf resolve dirname relative rejects cfg rootDir route c).
Proof.
  intros HP w.
  destruct (resolveScreenshotConfig gf cfg c) as [r|e] eqn:Hr.
  - destruct (HP r eq_refl) as [Hcalls Hlog].
    rewrite capture_as_calls with (r := r) by exact Hr.
    apply emits_bind.
    + apply emits_for_of_elem. intros x Hx. apply emits_call.
      intros b. by apply Hcalls.
    + intros _ w'.
      exists 0%nat, [captureLogged resolve relative rootDir route r].
      split; [reflexivity | by repeat constructor].
  - rewrite capture_throws_format with (e := e) by exact Hr.
    exists 0%nat, []. split; [|constructor]. simpl. by rewrite extend_0_nil.
Qed.

Lemma emits_capturePage_of route v :
  (forall l, iterate v = Ok l -> forall c, c ∈ l ->
     emits P
       (capture gf resolve dirname relative rejects cfg rootDir route c)) ->
  emits P
    (capturePage gf resolve dirname relative rejects cfg rootDir (route, v)).
Proof.
  intros H w. unfold capturePage, lift. unfold bind at 1.
  destruct (iterate v) as [l|e] eqn:E.
  - apply emits_for_of_elem. intros c Hc. by apply (H l).
  - exists 0%nat, []. split; [|constructor]. simpl. by rewrite extend_0_nil.
Qed.

(** Every event of a run is the debug entry, one of the four calls
    around the loop, or an event of the capture of a specification listed
    under a route of [pages]. *)
Lemma emits_handleBuildDone :
  (forall msg, P (Logged Debug msg)) ->
  (forall b, P (Called (Preview rootDir (port cfg)) b)) ->
  (forall b, P (Called (Launch (launchOptions cfg)) b)) ->
  (forall b, P (Called BrowserClose b)) ->
  (forall b, P (Called ServerStop b)) ->
  (forall route l c r,
     (route, Configs l) ∈ cfg_pages cfg -> c ∈ l ->
     resolveScreenshotConfig gf cfg c = Ok r ->
     (forall x b, x ∈ captureCalls resolve dirname cfg rootDir route r ->
        P (Called x b))
     /\ P (captureLogged resolve relative rootDir route r)) ->
  emits P (handleBuildDone gf resolve dirname relative rejects cfg rootDir).
Proof.
  intros Hdebug Hpreview Hlaunch Hclose Hstop Hcapture.
  unfold handleBuildDone. cbv zeta.
  destruct (length (pages cfg) =? 0)%nat.
  { by apply emits_log. }
  apply emits_bind; [by apply emits_call | intros _].
  apply emits_bind; [by apply emits_call | intros _].
  apply emits_try_finally.
  - apply emits_for_of_elem. intros [route v] Hentry.
    apply emits_capturePage_of. intros l Hl c Hc.
    destruct v as [l'| |]; simpl in Hl; try discriminate.
    injection Hl as ->.
    apply emits_capture_of. intros r Hr. by apply (Hcapture route l c r).
  - unfold teardown.
    apply emits_bind; [by apply emits_call | intros _].
    by apply emits_call.
Qed.

End Provenance.

Lemma resolveScreenshotConfig_inv gf cfg c r :
  resolveScreenshotConfig gf cfg c = Ok r ->
  r_outputPath r = outputPath c
  /\ r_width r = dimension (width c) (d_width (defaults cfg)) 1200
  /\ r_height r = dimension (height c) (d_height (defaults cfg)) 630.
Proof.
  intros Hr. destruct (gf (outputPath c)) as [fmt|e] eqn:Hfmt.
  - destruct (resolveScreenshotConfig_Ok gf cfg c fmt Hfmt)
      as (rc & Hrc & Hw & Hh & Hout & _).
    rewrite Hrc in Hr. injection Hr as <-.
    by rewrite Hw, Hh, !or_num_dimension.
  - by rewrite (resolveScreenshotConfig_Throw gf cfg c e Hfmt) in Hr.
Qed.



(** X9: in every run, whatever the specifications and the defaults say,
    the viewport is never set to a width or a height of 0. *)
Theorem viewport_never_zero :
  forall gf resolve dirname relative rejects cfg rootDir e,
    let run :=
      handleBuildDone gf resolve dirname relative rejects cfg rootDir
        initial in
    e ∈ trace run.2 ->
    sized e.
Proof.
  intros gf resolve dirname relative rejects cfg rootDir e run He.
  destruct (emits_handleBuildDone gf resolve dirname relative rejects cfg
              rootDir sized) with (w := initial)
    as (n & evs & Hw & Hevs); try done.
  - intros route l c r Hentry Hc Hr.
    destruct (resolveScreenshotConfig_inv gf cfg c r Hr) as (_ & Hwd & Hht).
    split; [|done]. intros x b Hx. unfold captureCalls in Hx.
    repeat (apply elem_of_cons in Hx as [-> | Hx]); try done.
    + simpl. rewrite Hwd, Hht. split; by apply dimension_nonzero.
    + by apply elem_of_nil in Hx.
  - fold run in Hw. rewrite Hw in He. simpl in He.
    rewrite Forall_forall in Hevs. by apply Hevs.
Qed.

Lemma viewport_never_zero_witness :
  sized (resolved (SetViewport 1200 630)).
Proof.
  apply (viewport_never_zero getFormat posix_resolve posix_dirname
           posix_relative all_resolve
           {| cfg_pages := [("/", Configs [zero_sized])];
              cfg_defaults := None; cfg_launchOptions := None;
              cfg_port := Undefined |} "/site").
  vm_compute trace. do 4 apply list_elem_of_further. apply list_elem_of_here.
Defined.

(** ** The loop body *)

(** X10: a tab is closed only at the end of a capture.  When a page has
    been opened and [setViewport], [goto] or [screenshot] rejects (the
    [k]-th call of the capture, [2 <= k <= 4]), the capture throws that
    rejection without calling [page.close()] and without a log entry. *)
Theorem rejected_capture_leaves_tab_open :
  forall gf resolve dirname relative rejects cfg rootDir route c r w k,
    resolveScreenshotConfig gf cfg c = Ok r ->
    (2 <= k <= 4)%nat ->
    (forall n, (calls w <= n < calls w + k)%nat -> rejects n = false) ->
    rejects (calls w + k)%nat = true ->
    exists x evs,
      capture gf resolve dirname relative rejects cfg rootDir route c w
      = (Throw (Rejected x), extend w (S k) evs)
      /\ resolved NewPage ∈ evs
      /\ (forall b, Called PageClose b ∉ evs)
      /\ (forall level msg, Logged level msg ∉ evs).
Proof.
  intros gf resolve dirname relative rejects cfg rootDir route c r w k
    Hr Hk Hbefore Hat.
  assert (k = 2 \/ k = 3 \/ k = 4)%nat as [-> | [-> | ->]] by lia.
  - eexists _, _. split.
    + eapply capture_rejected with (r := r)
        (pre := take 2 (captureCalls resolve dirname cfg rootDir route r));
        [exact Hr | reflexivity | exact Hbefore | exact Hat].
    + simpl. split; [by repeat constructor|].
      split; intros; intros Hin;
        repeat (apply elem_of_cons in Hin as [Hin|Hin]; [discriminate|]);
        by apply elem_of_nil in Hin.
  - eexists _, _. split.
    + eapply capture_rejected with (r := r)
        (pre := take 3 (captureCalls resolve dirname cfg rootDir route r));
        [exact Hr | reflexivity | exact Hbefore | exact Hat].
    + simpl. split; [by repeat constructor|].
      split; intros; intros Hin;
        repeat (apply elem_of_cons in Hin as [Hin|Hin]; [discriminate|]);
        by apply elem_of_nil in Hin.
  - eexists _, _. split.
    + eapply capture_rejected with (r := r)
        (pre := take 4 (captureCalls resolve dirname cfg rootDir route r));
        [exact Hr | reflexivity | exact Hbefore | exact Hat].
    + simpl. split; [by repeat constructor|].
      split; intros; intros Hin;
        repeat (apply elem_of_cons in Hin as [Hin|Hin]; [discriminate|]);
        by apply elem_of_nil in Hin.
Qed.

Lemma rejected_capture_leaves_tab_open_witness :
  exists x evs,
    capture getFormat posix_resolve posix_dirname posix_relative
      (rejects_at 3) array_usage "/site" "/about" about_page initial
    = (Throw (Rejected x), extend initial 4 evs)
    /\ resolved NewPage ∈ evs
    /\ (forall b, Called PageClose b ∉ evs)
    /\ (forall level msg, Logged level msg ∉ evs).
Proof.
  apply (rejected_capture_leaves_tab_open getFormat posix_resolve
           posix_dirname posix_relative (rejects_at 3) array_usage "/site"
           "/about" about_page about_resolved initial 3).
  - reflexivity.
  - lia.
  - intros n Hn. apply Nat.eqb_neq. simpl in Hn. lia.
  - reflexivity.
Defined.

(** X11: the directory that a capture creates is the parent of the
    output path resolved against the root directory, while the [path]
    handed to [page.screenshot] is the output path as configured, not
    resolved (unless a [path] key is supplied in the screenshotOptions). *)
Theorem screenshot_path_as_configured :
  forall gf resolve dirname relative rejects cfg rootDir route c fmt w,
    gf (outputPath c) = Ok fmt ->
    props (d_screenshotOptions (defaults cfg)) !! "path" = None ->
    props (screenshotOptions c) !! "path" = None ->
    (forall n, (calls w <= n < calls w + 6)%nat -> rejects n = false) ->
    exists o evs,
      capture gf resolve dirname relative rejects cfg rootDir route c w
      = (Ok tt, extend w 6 evs)
      /\ resolved (Mkdir (dirname (resolve rootDir (outputPath c)))) ∈ evs
      /\ resolved (Screenshot o) ∈ evs
      /\ o !! "path" = Some (VStr (outputPath c)).
Proof.
  intros gf resolve dirname relative rejects cfg rootDir route c fmt w
    Hfmt Hd Hown H.
  destruct (resolveScreenshotConfig_Ok gf cfg c fmt Hfmt)
    as (r & Hr & _ & _ & Hout & _ & Hso).
  exists (r_screenshotOptions r). eexists. split.
  - by apply capture_resolved with (r := r).
  - simpl. rewrite Hout. split; [by left|].
    split; [by repeat constructor|].
    rewrite Hso, lookup_three_layers. unfold layered.
    by rewrite Hown, Hd.
Qed.

Lemma screenshot_path_as_configured_witness :
  exists o evs,
    capture getFormat posix_resolve posix_dirname posix_relative
      all_resolve array_usage "/site" "/about" about_page initial
    = (Ok tt, extend initial 6 evs)
    /\ resolved (Mkdir "/site/public/images") ∈ evs
    /\ resolved (Screenshot o) ∈ evs
    /\ o !! "path" = Some (VStr "public/images/about-preview.png").
Proof.
  apply (screenshot_path_as_configured getFormat posix_resolve
           posix_dirname posix_relative all_resolve array_usage "/site"
           "/about" about_page "png" initial).
  - reflexivity.
  - reflexivity.
  - reflexivity.
  - reflexivity.
Defined.

(** ** The remaining options *)

(** X12: whenever the resolver returns, the resolved screenshotOptions
    are the shallow merge of [{path, type, fullPage: false}], then the
    defaults' screenshotOptions, then the specification's: key by key
    the specification's value wins over the defaults' value, which wins
    over the computed seed; [path], [type] and [fullPage] are always
    present. *)
Theorem resolve_screenshotOptions_layers :
  forall gf cfg pc fmt,
    gf (outputPath pc) = Ok fmt ->
    exists rc,
      resolveScreenshotConfig gf cfg pc = Ok rc
      /\ (forall k,
            r_screenshotOptions rc !! k
            = layered
                {[ "path" := VStr (outputPath pc); "type" := VStr fmt;
                   "fullPage" := VBool false ]}
                (props (d_screenshotOptions (defaults cfg)))
                (props (screenshotOptions pc)) k)
      /\ is_Some (r_screenshotOptions rc !! "path")
      /\ is_Some (r_screenshotOptions rc !! "type")
      /\ is_Some (r_screenshotOptions rc !! "fullPage").
Proof.
  intros gf cfg pc fmt Hfmt.
  destruct (resolveScreenshotConfig_Ok gf cfg pc fmt Hfmt)
    as (rc & Hrc & _ & _ & _ & _ & Hso).
  exists rc. split; [exact Hrc|].
  assert (Hk : forall k,
    r_screenshotOptions rc !! k
    = layered
        {[ "path" := VStr (outputPath pc); "type" := VStr fmt;
           "fullPage" := VBool false ]}
        (props (d_screenshotOptions (defaults cfg)))
        (props (screenshotOptions pc)) k).
  { intros k. rewrite Hso. apply lookup_three_layers. }
  split; [exact Hk|].
  repeat split; rewrite Hk; unfold layered;
    destruct (props (screenshotOptions pc) !! _); eauto;
    destruct (props (d_screenshotOptions (defaults cfg)) !! _); eauto.
Qed.

Lemma resolve_screenshotOptions_layers_witness :
  exists rc,
    resolveScreenshotConfig getFormat quality_defaults full_page = Ok rc
    /\ r_screenshotOptions rc !! "fullPage" = Some (VBool true)
    /\ r_screenshotOptions rc !! "quality" = Some (VNum 80)
    /\ r_screenshotOptions rc !! "clip" = None.
Proof.
  destruct (resolve_screenshotOptions_layers getFormat quality_defaults
              full_page "jpeg" eq_refl) as (rc & Hrc & Hk & _).
  exists rc. split; [exact Hrc|].
  split; [|split]; rewrite Hk; reflexivity.
Defined.

(** X13: the launch options are [{headless: true}] overwritten key by
    key by the configured launchOptions: a configured [headless] wins,
    an absent one is [true], every other configured key is passed on and
    no other key is added. *)
Theorem launchOptions_layers :
  forall cfg k,
    launchOptions cfg !! k
    = match props (cfg_launchOptions cfg) !! k with
      | Some v => Some v
      | None => if decide (k = "headless") then Some (VBool true) else None
      end.
Proof.
  intros cfg k. unfold launchOptions. rewrite lookup_spread_opt.
  destruct (props (cfg_launchOptions cfg) !! k); [done|].
  case_decide as Hk.
  - subst k. apply lookup_singleton_eq.
  - by apply lookup_singleton_ne.
Qed.

Lemma append_cancel (s a b : string) : s +:+ a = s +:+ b -> a = b.
Proof.
  induction s as [|ch s IH]; simpl; [done|].
  intros H. injection H as H. by apply IH.
Qed.

(** X14: two route keys are navigated to under the same URL exactly
    when they are equal or one is the other with a [/] put in front of
    it, the other not starting with [/]. *)
Theorem pageUrl_same_iff :
  forall cfg k1 k2,
    pageUrl cfg k1 = pageUrl cfg k2
    <-> k1 = k2
        \/ (String.prefix "/" k1 = false /\ k2 = "/" +:+ k1)
        \/ (String.prefix "/" k2 = false /\ k1 = "/" +:+ k2).
Proof.
  intros cfg k1 k2. unfold pageUrl, normalizedPagePath. split.
  - intros H. do 2 apply append_cancel in H.
    destruct (String.prefix "/" k1) eqn:E1, (String.prefix "/" k2) eqn:E2.
    + by left.
    + right; right. by split.
    + right; left. by split.
    + left. by injection H.
  - intros [-> | [[E1 ->] | [E2 ->]]].
    + reflexivity.
    + by rewrite E1, prefix_slash.
    + by rewrite E2, prefix_slash.
Qed.

(** ** The port *)

(** X15: in every run the preview server is started on the root
    directory with the resolved port ([config.port ?? 4322]), and every
    navigation goes to [http://localhost:<that port>] followed by a path
    beginning with [/]: the URL is built from the configured number, not
    from anything the started server reports. *)
Theorem navigates_to_configured_port :
  forall gf resolve dirname relative rejects cfg rootDir e,
    let run :=
      handleBuildDone gf resolve dirname relative rejects cfg rootDir
        initial in
    e ∈ trace run.2 ->
    on_port cfg rootDir e.
Proof.
  intros gf resolve dirname relative rejects cfg rootDir e run He.
  destruct (emits_handleBuildDone gf resolve dirname relative rejects cfg
              rootDir (on_port cfg rootDir)) with (w := initial)
    as (n & evs & Hw & Hevs); try done.
  - intros route l c r Hentry Hc Hr.
    split; [|done]. intros x b Hx. unfold captureCalls in Hx.
    repeat (apply elem_of_cons in Hx as [-> | Hx]); try done.
    + simpl. exists (normalizedPagePath route). split; [done|].
      unfold normalizedPagePath.
      destruct (String.prefix "/" route) eqn:E; [exact E|].
      apply prefix_slash.
    + by apply elem_of_nil in Hx.
  - fold run in Hw. rewrite Hw in He. simpl in He.
    rewrite Forall_forall in Hevs. by apply Hevs.
Qed.

Lemma navigates_to_configured_port_witness :
  on_port
    {| cfg_pages := [("about", Configs [about_page])];
       cfg_defaults := None; cfg_launchOptions := None;
       cfg_port := Num 0 |} "/site"
    (resolved (Goto "http://localhost:0/about"
                 {[ "waitUntil" := VStr "networkidle2" ]})).
Proof.
  apply (navigates_to_configured_port getFormat posix_resolve posix_dirname
           posix_relative all_resolve
           {| cfg_pages := [("about", Configs [about_page])];
              cfg_defaults := None; cfg_launchOptions := None;
              cfg_port := Num 0 |} "/site").
  vm_compute trace. do 5 apply list_elem_of_further. apply list_elem_of_here.
Defined.
